(** * Adaptive Lighting: the configuration schema and the component set-up

    A shallow embedding of [custom_components/adaptive_lighting/__init__.py]:
    the capability table [_SUPPORT_OPTS], the voluptuous schema
    [CONFIG_SCHEMA] and the coroutine [async_setup].

    Python values are an inductive type [PyVal]; dictionaries are finite maps
    with string keys; floats are the kernel's binary64 floats, which is what
    a Python float is.  The voluptuous combinators the schema is built from
    ([Schema] over a dict, [Required], [Optional], [All], [Coerce], [Range])
    are written out as functions.  What the module imports from Home
    Assistant and from the sibling module [const.py] is gathered in two
    interfaces, [HomeAssistant] and [Const]. *)

From Stdlib Require Import ZArith Lia Floats Ascii String.
From stdpp Require Import gmap strings list fin_maps.

Local Open Scope Z_scope.
Local Set Warnings "-register-all".

(** ** Python values *)

(** A string is a sequence of code points below 256, one [ascii] each. *)
Inductive PyVal : Type :=
  | PyNone
  | PyBool (b : bool)
  | PyInt (z : Z)
  | PyFloat (f : float)
  | PyStr (s : string)
  | PyList (l : list PyVal)
  | PyDict (d : gmap string PyVal)
  | PyTimedelta (microseconds : Z).

(** The exceptions the built-in conversions raise. *)
Inductive PyExc : Set := ValueError | TypeError | OverflowError.

Inductive raises (A : Type) : Type :=
  | Returns (a : A)
  | Raises (e : PyExc).
Arguments Returns {A} a.
Arguments Raises {A} e.

(** The interpreter: [sys.get_int_max_str_digits()], the longest digit
    string [int] converts; [0] is "no limit", which is also what a Python
    older than 3.11 does. *)
Class Runtime := { int_max_str_digits : nat }.

(** ** The built-in [int] *)

Module PyInt_of.

(** The code points below 256 that [int] skips around a number: the
    ASCII white space of [Py_ISSPACE] (tab to carriage return, and the
    space), and the two code points from 127 on that are Unicode white
    space and that [int] reads as a space (next line and no-break space).
    The separators 28 to 31 are below 127 and no ASCII white space: they
    are not skipped. *)
Definition is_space (c : ascii) : bool :=
  let n := Z.of_N (N_of_ascii c) in
  ((9 <=? n) && (n <=? 13)) || (n =? 32) || (n =? 133) || (n =? 160).

Definition digit_value (c : ascii) : option Z :=
  let n := Z.of_N (N_of_ascii c) in
  if (48 <=? n) && (n <=? 57) then Some (n - 48) else None.

Definition is_underscore (c : ascii) : bool :=
  Z.of_N (N_of_ascii c) =? 95.

Fixpoint skip_space (s : string) : string :=
  match s with
  | String c rest => if is_space c then skip_space rest else s
  | EmptyString => EmptyString
  end.

(** What the scanner saw last: nothing yet, a digit, or an underscore. *)
Inductive prev_char : Set := PStart | PDigit | PUnderscore.

(** The digit scanner of [PyLong_FromString] in base 10: digits, with
    single underscores allowed between two digits.  It returns the value,
    the number of digits and the rest of the string, and fails when there
    is no digit or an underscore is leading, doubled or trailing. *)
Fixpoint scan_digits (s : string) (prev : prev_char) (acc : Z) (n : nat)
  : option (Z * nat * string) :=
  let finish := match prev with PDigit => Some (acc, n, s) | _ => None end in
  match s with
  | String c rest =>
      match digit_value c with
      | Some d => scan_digits rest PDigit (10 * acc + d) (S n)
      | None =>
          if is_underscore c then
            match prev with
            | PDigit => scan_digits rest PUnderscore acc n
            | _ => None
            end
          else finish
      end
  | EmptyString => finish
  end.

Definition take_sign (s : string) : bool * string :=
  match s with
  | String "+" rest => (false, rest)
  | String "-" rest => (true, rest)
  | _ => (false, s)
  end.

(** [int(s)] for a string: [None] is [ValueError].  The digit limit is
    looked at only for more than 640 digits, the least limit that can be
    set. *)
Definition of_str `{Runtime} (s : string) : option Z :=
  let '(neg, body) := take_sign (skip_space s) in
  match scan_digits body PStart 0 0 with
  | Some (z, n, rest) =>
      if (640 <? n)%nat && (0 <? int_max_str_digits)%nat
         && (int_max_str_digits <? n)%nat
      then None
      else
        match skip_space rest with
        | EmptyString => Some (if neg then - z else z)
        | String _ _ => None
        end
  | None => None
  end.

(** [int(f)] for a float: truncation toward zero of the exact value. *)
Definition of_float (f : float) : raises Z :=
  match Prim2SF f with
  | S754_zero _ => Returns 0
  | S754_infinity _ => Raises OverflowError
  | S754_nan => Raises ValueError
  | S754_finite s m e =>
      let a := if 0 <=? e then Z.shiftl (Z.pos m) e
               else Z.shiftr (Z.pos m) (- e) in
      Returns (if s then - a else a)
  end.

End PyInt_of.

Definition py_int `{Runtime} (v : PyVal) : raises Z :=
  match v with
  | PyInt z => Returns z
  | PyBool b => Returns (Z.b2z b)
  | PyFloat f => PyInt_of.of_float f
  | PyStr s =>
      match PyInt_of.of_str s with
      | Some z => Returns z
      | None => Raises ValueError
      end
  | PyNone | PyList _ | PyDict _ | PyTimedelta _ => Raises TypeError
  end.

(** [int] as the callable handed to [vol.Coerce]. *)
Definition int `{Runtime} (v : PyVal) : raises PyVal :=
  match py_int v with
  | Returns z => Returns (PyInt z)
  | Raises e => Raises e
  end.

(** ** Comparison of a value with an integer bound *)

(** [Some c]: the order of the float and [z]; [None]: the float is a nan,
    for which every comparison is false. *)
Definition float_compare_Z (f : float) (z : Z) : option comparison :=
  match Prim2SF f with
  | S754_zero _ => Some (0 ?= z)
  | S754_infinity s => Some (if s then Lt else Gt)
  | S754_nan => None
  | S754_finite s m e =>
      let sm := if s then Z.neg m else Z.pos m in
      Some (if 0 <=? e then Z.shiftl sm e ?= z
            else sm ?= Z.shiftl z (- e))
  end.

(** [v >= z] and [v <= z]: [Raises TypeError] where Python has no order
    between the two types. *)
Definition py_ge (v : PyVal) (z : Z) : raises bool :=
  match v with
  | PyInt x => Returns (z <=? x)
  | PyBool b => Returns (z <=? Z.b2z b)
  | PyFloat f =>
      Returns (match float_compare_Z f z with
               | Some Gt | Some Eq => true
               | _ => false
               end)
  | _ => Raises TypeError
  end.

Definition py_le (v : PyVal) (z : Z) : raises bool :=
  match v with
  | PyInt x => Returns (x <=? z)
  | PyBool b => Returns (Z.b2z b <=? z)
  | PyFloat f =>
      Returns (match float_compare_Z f z with
               | Some Lt | Some Eq => true
               | _ => false
               end)
  | _ => Raises TypeError
  end.

(** ** voluptuous *)

(** The [vol.Invalid] subclasses that occur, and the messages of the two
    plain [Invalid]s a mapping raises; [HostInvalid] stands for whatever a
    Home Assistant validator reports. *)
Inductive invalid_kind : Set :=
  | CoerceInvalid
  | RangeInvalid
  | ValueInvalid
  | DictInvalid
  | RequiredFieldInvalid
  | ExtraKeysNotAllowed
  | HostInvalid.

(** An error with the path of keys that leads to the offending value. *)
Record Invalid_error := mk_error { err_path : list string; err_kind : invalid_kind }.

(** What calling a validator does: it returns the validated value, raises
    [vol.Invalid] (a [MultipleInvalid] carries several errors), or lets
    another exception escape. *)
Inductive result (A : Type) : Type :=
  | Valid (a : A)
  | Invalid (errors : list Invalid_error)
  | Raised (e : PyExc).
Arguments Valid {A} a.
Arguments Invalid {A} errors.
Arguments Raised {A} e.

Definition validator := PyVal → result PyVal.

Definition is_valid {A} (r : result A) : bool :=
  match r with Valid _ => true | _ => false end.

Definition invalid (k : invalid_kind) : result PyVal :=
  Invalid [mk_error [] k].

(** [vol.Coerce(type)]: [ValueError] and [TypeError] of the conversion
    become [CoerceInvalid]; any other exception is not caught. *)
Definition Coerce (type : PyVal → raises PyVal) : validator :=
  λ v, match type v with
       | Returns x => Valid x
       | Raises ValueError | Raises TypeError => invalid CoerceInvalid
       | Raises e => Raised e
       end.

(** [vol.Range(min=.., max=..)], both bounds included: the value itself is
    returned; a value without an order against the bounds is out of range. *)
Definition Range (min max : Z) : validator :=
  λ v, match py_ge v min with
       | Returns true =>
           match py_le v max with
           | Returns true => Valid v
           | _ => invalid RangeInvalid
           end
       | _ => invalid RangeInvalid
       end.

(** A callable in a schema is compiled ([_compile_scalar]) into a call
    that turns a [ValueError] of the callable into [ValueInvalid].  The
    validators of [All], the values of a schema dict and the elements of
    a schema list are compiled. *)
Definition compile_scalar (schema : validator) : validator :=
  λ v, match schema v with
       | Raised ValueError => invalid ValueInvalid
       | r => r
       end.

(** [vol.All(v1, v2, ...)]: each validator is fed the output of the one
    before; the first failure is the failure of the whole. *)
Fixpoint All (validators : list validator) : validator :=
  λ v, match validators with
       | [] => Valid v
       | f :: fs =>
           match compile_scalar f v with
           | Valid v' => All fs v'
           | Invalid es => Invalid es
           | Raised e => Raised e
           end
       end.

(** *** Schemas over a dict *)

(** A key of a schema dict: a marker [vol.Required] or [vol.Optional], or
    a plain value.  [Schema] is built with [required=False], so that a
    plain key need not be there; it has no default. *)
Inductive marker_class : Set := RequiredKey | OptionalKey | PlainKey.

Record Marker := mk_marker {
  marker : marker_class;
  schema : string;
  default : option PyVal
}.

(** [vol.Required(schema, default=...)] and [vol.Optional(schema,
    default=...)]; [None] is a marker built without [default]. *)
Definition Required (schema : string) (default : option PyVal) : Marker :=
  mk_marker RequiredKey schema default.

Definition Optional (schema : string) (default : option PyVal) : Marker :=
  mk_marker OptionalKey schema default.

(** A key written without a marker. *)
Definition Plain (schema : string) : Marker :=
  mk_marker PlainKey schema None.

(** [extra=] of [vol.Schema]; [PREVENT_EXTRA] is what a schema gets when
    the argument is not given. *)
Inductive extra_policy : Set := PREVENT_EXTRA | ALLOW_EXTRA | REMOVE_EXTRA.

(** A schema dict, in the order it is written. *)
Definition mapping_schema := list (Marker * validator).

Fixpoint candidate (s : mapping_schema) (k : string) : option validator :=
  match s with
  | [] => None
  | (m, cvalue) :: rest =>
      if String.eqb (schema m) k then Some cvalue else candidate rest k
  end.

Definition prepend (k : string) (e : Invalid_error) : Invalid_error :=
  mk_error (k :: err_path e) (err_kind e).

(** One pass of the loop over the provided items: the value goes through
    the validator of the schema key that equals the item's key; an item
    with no such key is kept, dropped or an error, as [extra] says.
    [Valid None] is an item left out of the output. *)
Definition validate_item (extra : extra_policy) (s : mapping_schema)
    (k : string) (v : PyVal) : result (option PyVal) :=
  match candidate s k with
  | Some cvalue =>
      match compile_scalar cvalue v with
      | Valid cval => Valid (Some cval)
      | Invalid [] => Valid None
      | Invalid es => Invalid (prepend k <$> es)
      | Raised e => Raised e
      end
  | None =>
      match extra with
      | ALLOW_EXTRA => Valid (Some v)
      | REMOVE_EXTRA => Valid None
      | PREVENT_EXTRA => Invalid [mk_error [k] ExtraKeysNotAllowed]
      end
  end.

(** The defaults of the keys that have one. *)
Definition defaults (s : mapping_schema) : gmap string PyVal :=
  list_to_map (omap (λ '(m, _), (λ d, (schema m, d)) <$> default m) s).

(** The provided items, then the default of every key that is not provided. *)
Definition key_value_map (s : mapping_schema) (data : gmap string PyVal)
  : gmap string PyVal :=
  data ∪ defaults s.

(** The [Required] keys that are still not there. *)
Definition missing_required (s : mapping_schema) (kvm : gmap string PyVal)
  : list Invalid_error :=
  omap (λ '(m, _),
          match marker m, kvm !! schema m with
          | RequiredKey, None => Some (mk_error [schema m] RequiredFieldInvalid)
          | _, _ => None
          end) s.

Definition raised_of {A} (r : result A) : option PyExc :=
  match r with Raised e => Some e | _ => None end.

Definition errors_of {A} (r : result A) : list Invalid_error :=
  match r with Invalid es => es | _ => [] end.

Definition kept {A} (r : result (option A)) : option A :=
  match r with Valid o => o | _ => None end.

(** [validate_mapping]: every item is validated, an exception that is not
    a [vol.Invalid] escapes at once, the errors of all items and of the
    missing required keys are raised together, and without errors the
    output holds the validated values.  Python visits the items in the
    dict's order, the model in the order of the keys: it decides only
    which exception escapes first and how the errors are listed. *)
Definition validate_mapping (extra : extra_policy) (s : mapping_schema)
    (data : gmap string PyVal) : result (gmap string PyVal) :=
  let kvm := key_value_map s data in
  let rs := (λ '(k, v), validate_item extra s k v) <$> map_to_list kvm in
  match head (omap raised_of rs) with
  | Some e => Raised e
  | None =>
      match concat (errors_of <$> rs) ++ missing_required s kvm with
      | [] => Valid (map_imap (λ k v, kept (validate_item extra s k v)) kvm)
      | es => Invalid es
      end
  end.

(** [vol.Schema({...}, extra=...)] called on a value. *)
Definition Schema (s : mapping_schema) (extra : extra_policy) : validator :=
  λ v, match v with
       | PyDict data =>
           match validate_mapping extra s data with
           | Valid out => Valid (PyDict out)
           | Invalid es => Invalid es
           | Raised e => Raised e
           end
       | _ => invalid DictInvalid
       end.

(** *** Schemas over a list *)

(** An element of a [[v1, v2, ...]] schema matches the first validator
    that accepts it; the error of the last one is reported otherwise. *)
Fixpoint first_match (candidates : list validator) (last : list Invalid_error)
    (v : PyVal) : result PyVal :=
  match candidates with
  | [] => Invalid last
  | f :: fs =>
      match compile_scalar f v with
      | Valid v' => Valid v'
      | Invalid es => first_match fs es v
      | Raised e => Raised e
      end
  end.

Fixpoint validate_sequence (candidates : list validator) (l : list PyVal)
    (out : list PyVal) (errors : list Invalid_error) : result PyVal :=
  match l with
  | [] => match errors with [] => Valid (PyList out) | _ => Invalid errors end
  | v :: rest =>
      match first_match candidates [mk_error [] HostInvalid] v with
      | Valid v' => validate_sequence candidates rest (out ++ [v']) errors
      | Invalid es => validate_sequence candidates rest out (errors ++ es)
      | Raised e => Raised e
      end
  end.

Definition Sequence (candidates : list validator) : validator :=
  λ v, match v with
       | PyList l => validate_sequence candidates l [] []
       | _ => invalid HostInvalid
       end.

(** ** What the module imports *)

(** From Home Assistant: the validators of [helpers.config_validation]
    ([cv]) and [VALID_TRANSITION], the feature flags of [components.light],
    and [SOURCE_IMPORT] of [config_entries]. *)
Class HomeAssistant := {
  cv_string : validator;
  cv_boolean : validator;
  cv_entity_id : validator;
  cv_entity_ids : validator;
  cv_ensure_list : validator;
  cv_time_period : validator;
  cv_time : validator;
  VALID_TRANSITION : validator;
  SUPPORT_BRIGHTNESS : Z;
  SUPPORT_COLOR_TEMP : Z;
  SUPPORT_COLOR : Z;
  SUPPORT_TRANSITION : Z;
  SOURCE_IMPORT : string
}.

(** From [const.py]: the default of every key that has one. *)
Class Const := {
  DEFAULT_NAME : PyVal;
  DEFAULT_LIGHTS : PyVal;
  DEFAULT_DISABLE_BRIGHTNESS_ADJUST : PyVal;
  DEFAULT_INITIAL_TRANSITION : PyVal;
  DEFAULT_INTERVAL : PyVal;
  DEFAULT_MAX_BRIGHTNESS : PyVal;
  DEFAULT_MAX_COLOR_TEMP : PyVal;
  DEFAULT_MIN_BRIGHTNESS : PyVal;
  DEFAULT_MIN_COLOR_TEMP : PyVal;
  DEFAULT_ONLY_ONCE : PyVal;
  DEFAULT_SLEEP_BRIGHTNESS : PyVal;
  DEFAULT_SLEEP_COLOR_TEMP : PyVal;
  DEFAULT_SUNRISE_OFFSET : PyVal;
  DEFAULT_SUNSET_OFFSET : PyVal;
  DEFAULT_TRANSITION : PyVal
}.

(** The key names and the domain are constants of [const.py], which is
    not among the sources; each is given the name the specification uses
    for the configuration key (section 6). *)

(** Modelled from the spec: a key name of [const.py]. *)
Definition CONF_NAME : string := "name".

(** Modelled from the spec: a key name of [const.py]. *)
Definition CONF_LIGHTS : string := "lights".

(** Modelled from the spec: a key name of [const.py]. *)
Definition CONF_DISABLE_BRIGHTNESS_ADJUST : string := "disable_brightness_adjust".

(** Modelled from the spec: a key name of [const.py]. *)
Definition CONF_DISABLE_ENTITY : string := "disable_entity".

(** Modelled from the spec: a key name of [const.py]. *)
Definition CONF_DISABLE_STATE : string := "disable_state".

(** Modelled from the spec: a key name of [const.py]. *)
Definition CONF_INITIAL_TRANSITION : string := "initial_transition".

(** Modelled from the spec: a key name of [const.py]. *)
Definition CONF_INTERVAL : string := "interval".

(** Modelled from the spec: a key name of [const.py]. *)
Definition CONF_MAX_BRIGHTNESS : string := "max_brightness".

(** Modelled from the spec: a key name of [const.py]. *)
Definition CONF_MAX_COLOR_TEMP : string := "max_color_temp".

(** Modelled from the spec: a key name of [const.py]. *)
Definition CONF_MIN_BRIGHTNESS : string := "min_brightness".

(** Modelled from the spec: a key name of [const.py]. *)
Definition CONF_MIN_COLOR_TEMP : string := "min_color_temp".

(** Modelled from the spec: a key name of [const.py]. *)
Definition CONF_ONLY_ONCE : string := "only_once".

(** Modelled from the spec: a key name of [const.py]. *)
Definition CONF_SLEEP_BRIGHTNESS : string := "sleep_brightness".

(** Modelled from the spec: a key name of [const.py]. *)
Definition CONF_SLEEP_COLOR_TEMP : string := "sleep_color_temp".

(** Modelled from the spec: a key name of [const.py]. *)
Definition CONF_SLEEP_ENTITY : string := "sleep_entity".

(** Modelled from the spec: a key name of [const.py]. *)
Definition CONF_SLEEP_STATE : string := "sleep_state".

(** Modelled from the spec: a key name of [const.py]. *)
Definition CONF_SUNRISE_OFFSET : string := "sunrise_offset".

(** Modelled from the spec: a key name of [const.py]. *)
Definition CONF_SUNRISE_TIME : string := "sunrise_time".

(** Modelled from the spec: a key name of [const.py]. *)
Definition CONF_SUNSET_OFFSET : string := "sunset_offset".

(** Modelled from the spec: a key name of [const.py]. *)
Definition CONF_SUNSET_TIME : string := "sunset_time".

(** Modelled from the spec: a key name of [const.py]. *)
Definition CONF_TRANSITION : string := "transition".

(** Modelled from the spec: the domain of [const.py]; Home Assistant loads
    the component of the directory [custom_components/adaptive_lighting]
    under the domain of that name. *)
Definition DOMAIN : string := "adaptive_lighting".

(** ** The module *)

Section Module_.
Context `{Runtime} `{HomeAssistant} `{Const}.

Definition _SUPPORT_OPTS : gmap string Z :=
  list_to_map [
    ("brightness", SUPPORT_BRIGHTNESS);
    ("color_temp", SUPPORT_COLOR_TEMP);
    ("color", SUPPORT_COLOR);
    ("transition", SUPPORT_TRANSITION)
  ].

(** The schema dict under [DOMAIN], key by key as it is written. *)
Definition DOMAIN_SCHEMA : mapping_schema := [
  (Required CONF_NAME (Some DEFAULT_NAME), cv_string);
  (Optional CONF_LIGHTS (Some DEFAULT_LIGHTS), cv_entity_ids);
  (Optional CONF_DISABLE_BRIGHTNESS_ADJUST
     (Some DEFAULT_DISABLE_BRIGHTNESS_ADJUST), cv_boolean);
  (Optional CONF_DISABLE_ENTITY None, cv_entity_id);
  (Optional CONF_DISABLE_STATE None,
     All [cv_ensure_list; Sequence [cv_string]]);
  (Optional CONF_INITIAL_TRANSITION (Some DEFAULT_INITIAL_TRANSITION),
     VALID_TRANSITION);
  (Optional CONF_INTERVAL (Some DEFAULT_INTERVAL), cv_time_period);
  (Optional CONF_MAX_BRIGHTNESS (Some DEFAULT_MAX_BRIGHTNESS),
     All [Coerce int; Range 1 100]);
  (Optional CONF_MAX_COLOR_TEMP (Some DEFAULT_MAX_COLOR_TEMP),
     All [Coerce int; Range 1000 10000]);
  (Optional CONF_MIN_BRIGHTNESS (Some DEFAULT_MIN_BRIGHTNESS),
     All [Coerce int; Range 1 100]);
  (Optional CONF_MIN_COLOR_TEMP (Some DEFAULT_MIN_COLOR_TEMP),
     All [Coerce int; Range 1000 10000]);
  (Optional CONF_ONLY_ONCE (Some DEFAULT_ONLY_ONCE), cv_boolean);
  (Optional CONF_SLEEP_BRIGHTNESS (Some DEFAULT_SLEEP_BRIGHTNESS),
     All [Coerce int; Range 1 100]);
  (Optional CONF_SLEEP_COLOR_TEMP (Some DEFAULT_SLEEP_COLOR_TEMP),
     All [Coerce int; Range 1000 10000]);
  (Optional CONF_SLEEP_ENTITY None, cv_entity_id);
  (Optional CONF_SLEEP_STATE None,
     All [cv_ensure_list; Sequence [cv_string]]);
  (Optional CONF_SUNRISE_OFFSET (Some DEFAULT_SUNRISE_OFFSET), cv_time_period);
  (Optional CONF_SUNRISE_TIME None, cv_time);
  (Optional CONF_SUNSET_OFFSET (Some DEFAULT_SUNSET_OFFSET), cv_time_period);
  (Optional CONF_SUNSET_TIME None, cv_time);
  (Optional CONF_TRANSITION (Some DEFAULT_TRANSITION), VALID_TRANSITION)
].

Definition CONFIG_SCHEMA : validator :=
  Schema [ (Plain DOMAIN, Schema DOMAIN_SCHEMA PREVENT_EXTRA) ]
         ALLOW_EXTRA.

End Module_.

(** ** The set-up coroutines *)

(** What [hass.async_create_task] is handed: the coroutine a call makes,
    which runs only once the event loop schedules it. *)
Inductive Coroutine : Type :=
  | flow_async_init (handler : string) (context : gmap string PyVal)
      (data : PyVal)
  | async_forward_entry_setup (config_entry : PyVal) (domain : string).

(** [hass], as far as this module touches it: the tasks created so far. *)
Record Hass := mk_hass { tasks : list Coroutine }.

(** A computation that may change [hass]. *)
Definition Task (A : Type) : Type := Hass → A * Hass.

Definition ret {A} (a : A) : Task A := λ hass, (a, hass).

Definition bind {A B} (c : Task A) (k : A → Task B) : Task B :=
  λ hass, let '(a, hass') := c hass in k a hass'.

Notation "c ;;; k" := (bind c (λ _, k))
  (at level 100, right associativity).

Definition async_create_task (target : Coroutine) : Task unit :=
  λ hass, (tt, mk_hass (tasks hass ++ [target])).

Section Setup.
Context `{HomeAssistant}.

Definition async_setup (config : gmap string PyVal) : Task bool :=
  match config !! DOMAIN with
  | Some data =>
      async_create_task
        (flow_async_init DOMAIN {[ "source" := PyStr SOURCE_IMPORT ]} data) ;;;
      ret true
  | None => ret true
  end.

Definition async_setup_entry (config_entry : PyVal) : Task bool :=
  async_create_task (async_forward_entry_setup config_entry "switch") ;;;
  ret true.

End Setup.

(** ** The photometric curve *)

Module PhotometricCurve.

(** The computation of the lighting setting is in [switch.py], which is
    not among the sources.  The definitions of this module follow sections
    3 and 4.2 of the specification.  Timestamps are seconds and the
    setting is a pair of integers.  Brightness and color temperature sit
    at their minimum at solar midnight and at their maximum at solar noon;
    sunrise and sunset are where the ramp begins and ends: the ramp up runs
    from sunrise to solar noon, the ramp down from solar noon to sunset,
    each linear in the elapsed fraction of its interval.  A time on an
    anchor gets the anchor's value without a division, an interval of no
    duration gives the value of the nearer anchor, and the output is
    clamped to the configured bounds. *)

(** Modelled from the spec: SunAnchors (section 3), the four anchor
    timestamps of a date, offsets applied. *)
Record SunAnchors := mk_anchors {
  sunrise : Z;
  sunset : Z;
  solar_noon : Z;
  solar_midnight : Z
}.

(** Modelled from the spec: SwitchConfig (section 3), the part of the
    validated configuration the curve reads. *)
Record SwitchConfig := mk_config {
  min_brightness : Z;
  max_brightness : Z;
  min_color_temp : Z;
  max_color_temp : Z;
  transition : Z
}.

(** Modelled from the spec: LightingSetting (section 3). *)
Record LightingSetting := mk_setting {
  color_temperature_kelvin : Z;
  brightness_percent : Z;
  transition_seconds : Z
}.


(** Modelled from the spec: the clamp of the output to [lo, hi]
    (section 4.2). *)
Definition clamp (lo hi x : Z) : Z := Z.max lo (Z.min hi x).

(** Modelled from the spec: the linear interpolation from [v0] at [t0] to
    [v1] at [t1] (section 4.2); on or outside an end of the interval the
    value is that of this end, so there is no division by zero. *)
Definition ramp (v0 v1 t0 t1 t : Z) : Z :=
  if t <=? t0 then v0
  else if t1 <=? t then v1
  else v0 + (v1 - v0) * (t - t0) / (t1 - t0).

(** Modelled from the spec: the four-point curve between a night value
    and a day value (section 4.2). *)
Definition curve (night day : Z) (a : SunAnchors) (now : Z) : Z :=
  if now <=? solar_noon a
  then ramp night day (sunrise a) (solar_noon a) now
  else ramp day night (solar_noon a) (sunset a) now.

(** Modelled from the spec: the color temperature in Kelvin, warmest at
    solar midnight and coolest at solar noon (section 4.2). *)
Definition color_temperature (c : SwitchConfig) (a : SunAnchors) (now : Z)
  : Z :=
  clamp (min_color_temp c) (max_color_temp c)
    (curve (min_color_temp c) (max_color_temp c) a now).

(** Modelled from the spec: the brightness in percent (section 4.2). *)
Definition brightness (c : SwitchConfig) (a : SunAnchors) (now : Z) : Z :=
  clamp (min_brightness c) (max_brightness c)
    (curve (min_brightness c) (max_brightness c) a now).

(** Modelled from the spec: [compute(now, anchors, config)] of section
    4.2. *)
Definition compute (now : Z) (anchors : SunAnchors) (config : SwitchConfig)
  : LightingSetting :=
  mk_setting (color_temperature config anchors now)
             (brightness config anchors now)
             (transition config).

(** Modelled from the spec: the invariant of a validated configuration
    (section 3). *)
Definition valid (c : SwitchConfig) : Prop :=
  min_brightness c <= max_brightness c
  ∧ min_color_temp c <= max_color_temp c.

End PhotometricCurve.

(** ** Vocabulary of the statements *)

(** An item the loop of [validate_mapping] passes without an error and
    without an exception. *)
Definition item_ok (extra : extra_policy) (s : mapping_schema)
    (k : string) (v : PyVal) : Prop :=
  raised_of (validate_item extra s k v) = None
  ∧ errors_of (validate_item extra s k v) = [].

(** A configuration document whose section for the integration is
    [section]; [doc] holds the other top-level keys. *)
Definition with_section (doc : gmap string PyVal)
    (section : gmap string PyVal) : PyVal :=
  PyDict (<[DOMAIN := PyDict section]> doc).

(** The keys validated as a brightness, and those validated as a color
    temperature. *)
Definition brightness_keys : list string :=
  [CONF_MIN_BRIGHTNESS; CONF_MAX_BRIGHTNESS; CONF_SLEEP_BRIGHTNESS].

Definition color_temp_keys : list string :=
  [CONF_MIN_COLOR_TEMP; CONF_MAX_COLOR_TEMP; CONF_SLEEP_COLOR_TEMP].

(** The range a numeric key is validated against. *)
Definition range_of (key : string) : option (Z * Z) :=
  if bool_decide (key ∈ brightness_keys) then Some (1, 100)
  else if bool_decide (key ∈ color_temp_keys) then Some (1000, 10000)
  else None.

(** A validated section whose minimum of a pair of bounds exceeds the
    maximum. *)
Definition bounds_inverted (section : gmap string PyVal) : Prop :=
  ∃ lo hi : Z, lo > hi
    ∧ ((section !! CONF_MIN_BRIGHTNESS = Some (PyInt lo)
        ∧ section !! CONF_MAX_BRIGHTNESS = Some (PyInt hi))
       ∨ (section !! CONF_MIN_COLOR_TEMP = Some (PyInt lo)
          ∧ section !! CONF_MAX_COLOR_TEMP = Some (PyInt hi))).

(** The values [int] raises a [TypeError] for. *)
Definition not_a_number (v : PyVal) : bool :=
  match v with
  | PyNone | PyList _ | PyDict _ | PyTimedelta _ => true
  | _ => false
  end.

(** The keys a schema dict is written with. *)
Definition keys (s : mapping_schema) : list string :=
  (λ '(m, _), schema m) <$> s.

(** [isinstance(v, dict)]. *)
Definition is_dict (v : PyVal) : bool :=
  match v with PyDict _ => true | _ => false end.

(** The keys that hold the states of an entity. *)
Definition state_keys : list string :=
  [CONF_DISABLE_STATE; CONF_SLEEP_STATE].

(** Modelled from the spec: [DEFAULT_INTERVAL] of [const.py], which is not
    among the sources, is a duration of 90 s (section 6): this is what
    [cv.time_period] makes of it. *)
Definition default_interval_90s `{HomeAssistant} `{Const} : Prop :=
  cv_time_period DEFAULT_INTERVAL = Valid (PyTimedelta 90000000).

(** The decimal numeral with the digits [ds], the most significant first,
    and the number it denotes. *)
Definition digit_char (d : Z) : ascii := ascii_of_N (Z.to_N (48 + d)).

Fixpoint numeral (ds : list Z) : string :=
  match ds with
  | [] => EmptyString
  | d :: ds' => String (digit_char d) (numeral ds')
  end.

Definition numeral_value (ds : list Z) : Z :=
  fold_left (λ acc d, 10 * acc + d) ds 0.

Definition is_digit (d : Z) : Prop := 0 <= d <= 9.

(** The ten cases of a digit. *)
Ltac digit_cases d H :=
  let H10 := fresh in
  assert (d = 0 ∨ d = 1 ∨ d = 2 ∨ d = 3 ∨ d = 4 ∨ d = 5 ∨ d = 6 ∨ d = 7
          ∨ d = 8 ∨ d = 9) as H10 by (unfold is_digit in H; lia);
  clear H;
  destruct H10 as [->|[->|[->|[->|[->|[->|[->|[->|[->| ->]]]]]]]]].

(** ** An installation to evaluate the module on *)

(** A CPython with the default digit limit, validators that accept the
    values already of the type Home Assistant's validators produce (those
    accept these values as well, and coerce some of the others), the
    feature flags of [components.light], and a [const.py]. *)
Module Example.

Definition python : Runtime := {| int_max_str_digits := 4300 |}.

Definition lowercase (c : ascii) : bool :=
  let n := Z.of_N (N_of_ascii c) in (97 <=? n) && (n <=? 122).

Fixpoint all_lowercase (s : string) : bool :=
  match s with
  | EmptyString => true
  | String c rest => lowercase c && all_lowercase rest
  end.

(** [domain.object_id], both parts lower-case letters and not empty. *)
Fixpoint valid_entity_id (s : string) (seen : bool) : bool :=
  match s with
  | EmptyString => false
  | String "." rest =>
      seen && all_lowercase rest
      && negb (String.eqb rest EmptyString)
  | String c rest => lowercase c && valid_entity_id rest true
  end.

Definition string_ : validator :=
  λ v, match v with PyStr _ => Valid v | _ => invalid HostInvalid end.

Definition boolean : validator :=
  λ v, match v with PyBool _ => Valid v | _ => invalid HostInvalid end.

Definition entity_id : validator :=
  λ v, match v with
       | PyStr s =>
           if valid_entity_id s false then Valid v else invalid HostInvalid
       | _ => invalid HostInvalid
       end.

Definition entity_ids : validator :=
  λ v, match v with
       | PyList l =>
           if forallb (λ x, is_valid (entity_id x)) l then Valid v
           else invalid HostInvalid
       | _ => invalid HostInvalid
       end.

Definition ensure_list : validator :=
  λ v, match v with
       | PyNone => Valid (PyList [])
       | PyList _ => Valid v
       | _ => Valid (PyList [v])
       end.

(** A [timedelta] as it is, a number of seconds as the [timedelta] of
    that many seconds. *)
Definition time_period : validator :=
  λ v, match v with
       | PyTimedelta _ => Valid v
       | PyInt n =>
           if (0 <=? n) && (n <=? 86399999913600)
           then Valid (PyTimedelta (n * 1000000))
           else invalid HostInvalid
       | _ => invalid HostInvalid
       end.

Definition time : validator := λ _, invalid HostInvalid.

(** A number of seconds between 0 and 6553, as a float. *)
Definition transition_ : validator :=
  λ v, match v with
       | PyInt n =>
           if (0 <=? n) && (n <=? 6553)
           then Valid (PyFloat (PrimFloat.of_uint63 (Uint63.of_Z n)))
           else invalid HostInvalid
       | PyFloat f =>
           if PrimFloat.leb 0 f && PrimFloat.leb f 6553 then Valid v
           else invalid HostInvalid
       | _ => invalid HostInvalid
       end.

Definition home_assistant : HomeAssistant := {|
  cv_string := string_;
  cv_boolean := boolean;
  cv_entity_id := entity_id;
  cv_entity_ids := entity_ids;
  cv_ensure_list := ensure_list;
  cv_time_period := time_period;
  cv_time := time;
  VALID_TRANSITION := transition_;
  SUPPORT_BRIGHTNESS := 1;
  SUPPORT_COLOR_TEMP := 2;
  SUPPORT_COLOR := 16;
  SUPPORT_TRANSITION := 32;
  SOURCE_IMPORT := "import"
|}.

Definition const : Const := {|
  DEFAULT_NAME := PyStr "default";
  DEFAULT_LIGHTS := PyList [];
  DEFAULT_DISABLE_BRIGHTNESS_ADJUST := PyBool false;
  DEFAULT_INITIAL_TRANSITION := PyInt 1;
  DEFAULT_INTERVAL := PyInt 90;
  DEFAULT_MAX_BRIGHTNESS := PyInt 100;
  DEFAULT_MAX_COLOR_TEMP := PyInt 5500;
  DEFAULT_MIN_BRIGHTNESS := PyInt 1;
  DEFAULT_MIN_COLOR_TEMP := PyInt 2500;
  DEFAULT_ONLY_ONCE := PyBool false;
  DEFAULT_SLEEP_BRIGHTNESS := PyInt 1;
  DEFAULT_SLEEP_COLOR_TEMP := PyInt 1000;
  DEFAULT_SUNRISE_OFFSET := PyInt 0;
  DEFAULT_SUNSET_OFFSET := PyInt 0;
  DEFAULT_TRANSITION := PyInt 60
|}.

(** The schema of this installation. *)
Definition schema : validator :=
  @CONFIG_SCHEMA python home_assistant const.

(** A configuration with nothing but the integration's section. *)
Definition configuration (section : gmap string PyVal) : PyVal :=
  with_section ∅ section.

(** What the schema makes of an empty section: every default, validated. *)
Definition validated_defaults : gmap string PyVal :=
  list_to_map [
    (CONF_NAME, PyStr "default");
    (CONF_LIGHTS, PyList []);
    (CONF_DISABLE_BRIGHTNESS_ADJUST, PyBool false);
    (CONF_INITIAL_TRANSITION, PyFloat 1);
    (CONF_INTERVAL, PyTimedelta 90000000);
    (CONF_MAX_BRIGHTNESS, PyInt 100);
    (CONF_MAX_COLOR_TEMP, PyInt 5500);
    (CONF_MIN_BRIGHTNESS, PyInt 1);
    (CONF_MIN_COLOR_TEMP, PyInt 2500);
    (CONF_ONLY_ONCE, PyBool false);
    (CONF_SLEEP_BRIGHTNESS, PyInt 1);
    (CONF_SLEEP_COLOR_TEMP, PyInt 1000);
    (CONF_SUNRISE_OFFSET, PyTimedelta 0);
    (CONF_SUNSET_OFFSET, PyTimedelta 0);
    (CONF_TRANSITION, PyFloat 60)
  ].

(** A section whose brightness bounds are the wrong way round. *)
Definition inverted : gmap string PyVal :=
  {[ CONF_MIN_BRIGHTNESS := PyInt 80; CONF_MAX_BRIGHTNESS := PyInt 20 ]}.

End Example.

(** * Facts about the validators *)

Section Results.
Context {A : Type}.
Implicit Types l : list (result A).

Lemma head_raised_None l :
  head (omap raised_of l) = None ↔ Forall (λ r, raised_of r = None) l.
Proof.
  induction l as [|r l IH]; simpl.
  - split; [constructor | done].
  - destruct r as [a|es|e]; simpl.
    + rewrite IH. split; [by constructor | by inversion 1].
    + rewrite IH. split; [by constructor | by inversion 1].
    + split; [done | inversion 1; discriminate].
Qed.

Lemma concat_errors_nil l :
  concat (errors_of <$> l) = [] ↔ Forall (λ r, errors_of r = []) l.
Proof.
  induction l as [|r l IH]; simpl.
  - split; [constructor | done].
  - split.
    + intros [? ?]%app_eq_nil. constructor; [done | by apply IH].
    + inversion 1 as [|?? Hr Hl]; subst. rewrite Hr. simpl. by apply IH.
Qed.

End Results.

Section Mapping.
Context (extra : extra_policy) (s : mapping_schema).
Implicit Types data kvm out : gmap string PyVal.

Lemma items_ok_iff kvm :
  let rs := (λ '(k, v), validate_item extra s k v) <$> map_to_list kvm in
  head (omap raised_of rs) = None ∧ concat (errors_of <$> rs) = []
  ↔ map_Forall (item_ok extra s) kvm.
Proof.
  simpl. rewrite head_raised_None, concat_errors_nil.
  rewrite map_Forall_to_list, !Forall_fmap, !Forall_forall.
  unfold item_ok. split.
  - intros [Hr He] [k v] Hin. simpl. split.
    + apply (Hr (k, v) Hin).
    + apply (He (k, v) Hin).
  - intros Hok. split; intros [k v] Hin; simpl; by destruct (Hok (k, v) Hin).
Qed.

(** The mapping is valid exactly when every item passes and no required
    key is missing; the output holds what the items' validators return. *)
Lemma validate_mapping_Valid data out :
  validate_mapping extra s data = Valid out
  ↔ map_Forall (item_ok extra s) (key_value_map s data)
    ∧ missing_required s (key_value_map s data) = []
    ∧ out = map_imap (λ k v, kept (validate_item extra s k v))
              (key_value_map s data).
Proof.
  unfold validate_mapping.
  pose proof (items_ok_iff (key_value_map s data)) as Hiff. simpl in Hiff.
  destruct (head _) as [e|] eqn:Hhead.
  - split; [done|]. intros (Hok & _ & _).
    apply Hiff in Hok as [? _]. congruence.
  - destruct (concat _ ++ _) as [|e es] eqn:Herr.
    + apply app_eq_nil in Herr as [Hc Hm]. split.
      * intros [= <-]. split_and!; [|done..]. apply Hiff. by split.
      * by intros (_ & _ & ->).
    + split; [done|]. intros (Hok & Hm & _).
      apply Hiff in Hok as [_ Hc]. rewrite Hc, Hm in Herr. done.
Qed.

Lemma is_valid_validate_mapping data :
  is_valid (validate_mapping extra s data) = true
  ↔ map_Forall (item_ok extra s) (key_value_map s data)
    ∧ missing_required s (key_value_map s data) = [].
Proof.
  split.
  - destruct (validate_mapping extra s data) as [out| |] eqn:Hv; try done.
    intros _. apply validate_mapping_Valid in Hv. tauto.
  - intros [Hok Hm].
    assert (validate_mapping extra s data
            = Valid (map_imap (λ k v, kept (validate_item extra s k v))
                       (key_value_map s data))) as ->; [|done].
    by apply validate_mapping_Valid.
Qed.

Lemma missing_required_insert kvm k v :
  missing_required s kvm = [] → missing_required s (<[k:=v]> kvm) = [].
Proof.
  unfold missing_required. induction s as [|[m f] s' IH]; [done|]. simpl.
  destruct (marker m) eqn:Hm.
  - destruct (kvm !! schema m) eqn:Hl; [|done].
    intros Hrest. destruct (decide (k = schema m)) as [->|Hne].
    + rewrite lookup_insert_eq. by apply IH.
    + rewrite lookup_insert_ne, Hl by done. by apply IH.
  - simpl. apply IH.
  - simpl. apply IH.
Qed.

Lemma key_value_map_insert data k v :
  key_value_map s (<[k:=v]> data) = <[k:=v]> (key_value_map s data).
Proof. unfold key_value_map. by rewrite insert_union_l. Qed.

(** Setting one key of a valid mapping to a value its item accepts:
    the mapping stays valid, and only that key of the output changes. *)
Lemma validate_mapping_insert data out k v v' :
  validate_mapping extra s data = Valid out →
  validate_item extra s k v = Valid (Some v') →
  validate_mapping extra s (<[k:=v]> data) = Valid (<[k:=v']> out).
Proof.
  intros (Hok & Hm & ->)%validate_mapping_Valid Hitem.
  apply validate_mapping_Valid. rewrite key_value_map_insert. split_and!.
  - apply map_Forall_insert_2; [|done]. unfold item_ok. by rewrite Hitem.
  - by apply missing_required_insert.
  - rewrite map_imap_insert, Hitem. done.
Qed.

(** A valid mapping has only items that pass. *)
Lemma validate_mapping_item data k v :
  is_valid (validate_mapping extra s (<[k:=v]> data)) = true →
  item_ok extra s k v.
Proof.
  intros [Hok _]%is_valid_validate_mapping.
  rewrite key_value_map_insert in Hok.
  by apply map_Forall_insert_1_1 in Hok.
Qed.

(** A [ValueError] does not get out of a mapping: each of its validators
    is compiled. *)
Lemma validate_item_ValueError k v :
  raised_of (validate_item extra s k v) ≠ Some ValueError.
Proof.
  unfold validate_item, compile_scalar.
  destruct (candidate s k) as [cvalue|].
  - by destruct (cvalue v) as [cval|[|e es]|[]].
  - by destruct extra.
Qed.

Lemma validate_mapping_ValueError data :
  validate_mapping extra s data ≠ Raised ValueError.
Proof.
  unfold validate_mapping.
  destruct (head _) as [e|] eqn:Hhead; [|by destruct (_ ++ _)].
  intros [= ->]. apply head_Some_elem_of in Hhead.
  apply list_elem_of_omap in Hhead as (r & Hr & Hraised).
  apply list_elem_of_fmap in Hr as ([k v] & -> & _).
  by apply (validate_item_ValueError k v).
Qed.

(** A key left out and the same key given its default are validated
    alike. *)
Lemma validate_mapping_default data k d :
  data !! k = None → defaults s !! k = Some d →
  validate_mapping extra s data = validate_mapping extra s (<[k:=d]> data).
Proof.
  intros Hk Hd.
  assert (key_value_map s (<[k:=d]> data) = key_value_map s data) as Heq.
  { rewrite key_value_map_insert. apply insert_id.
    unfold key_value_map. rewrite lookup_union_r; done. }
  unfold validate_mapping. by rewrite Heq.
Qed.

(** Compiling a schema over a dict changes nothing. *)
Lemma compile_scalar_Schema v :
  compile_scalar (Schema s extra) v = Schema s extra v.
Proof.
  unfold compile_scalar, Schema. destruct v; try done.
  pose proof (validate_mapping_ValueError d) as Hne.
  by destruct (validate_mapping extra s d) as [out|es|[]].
Qed.

End Mapping.

Section Numeric.
Context `{Runtime}.

(** [vol.All(vol.Coerce(int), vol.Range(min=lo, max=hi))], computed. *)
Lemma coerce_range_eq lo hi v :
  All [Coerce int; Range lo hi] v
  = match py_int v with
    | Returns n =>
        if (lo <=? n) && (n <=? hi) then Valid (PyInt n)
        else invalid RangeInvalid
    | Raises OverflowError => Raised OverflowError
    | Raises _ => invalid CoerceInvalid
    end.
Proof.
  unfold All, compile_scalar, Coerce, int.
  destruct (py_int v) as [n|e]; [|by destruct e].
  unfold Range, py_ge, py_le.
  by destruct (lo <=? n), (n <=? hi).
Qed.

(** It returns exactly the integers [int] makes of the value that lie in
    the range. *)
Lemma coerce_range_Valid lo hi v out :
  All [Coerce int; Range lo hi] v = Valid out
  ↔ ∃ n, py_int v = Returns n ∧ lo <= n <= hi ∧ out = PyInt n.
Proof.
  rewrite coerce_range_eq. destruct (py_int v) as [n|e].
  - destruct (Z.leb_spec lo n), (Z.leb_spec n hi); simpl.
    + split.
      * intros [= <-]. exists n. split_and!; [done|lia..|done].
      * by intros (? & [= <-] & _ & ->).
    + split; [done|]. intros (? & [= <-] & ? & _). lia.
    + split; [done|]. intros (? & [= <-] & ? & _). lia.
    + split; [done|]. intros (? & [= <-] & ? & _). lia.
  - split; [by destruct e | by intros (? & ? & _)].
Qed.

Lemma coerce_range_is_valid lo hi v :
  is_valid (All [Coerce int; Range lo hi] v) = true
  ↔ ∃ n, py_int v = Returns n ∧ lo <= n <= hi.
Proof.
  split.
  - destruct (All _ v) as [out| |] eqn:Hv; try done. intros _.
    apply coerce_range_Valid in Hv as (n & ? & ? & _). by exists n.
  - intros (n & Hn & Hr).
    assert (All [Coerce int; Range lo hi] v = Valid (PyInt n)) as ->; [|done].
    apply coerce_range_Valid. by exists n.
Qed.

(** It raises neither a [MultipleInvalid] without errors nor a
    [ValueError]. *)
Lemma coerce_range_errors lo hi v :
  All [Coerce int; Range lo hi] v ≠ Invalid []
  ∧ All [Coerce int; Range lo hi] v ≠ Raised ValueError.
Proof.
  rewrite coerce_range_eq. destruct (py_int v) as [n|e].
  - by destruct ((lo <=? n) && (n <=? hi)).
  - by destruct e.
Qed.

(** [int] by the type of its argument. *)
Lemma py_int_PyInt n lo hi :
  (∃ m, py_int (PyInt n) = Returns m ∧ lo <= m <= hi) ↔ lo <= n <= hi.
Proof.
  simpl. split.
  - by intros (m & [= <-] & ?).
  - intros Hr. by exists n.
Qed.

Lemma py_int_PyStr s lo hi :
  (∃ m, py_int (PyStr s) = Returns m ∧ lo <= m <= hi)
  ↔ ∃ m, PyInt_of.of_str s = Some m ∧ lo <= m <= hi.
Proof.
  simpl. destruct (PyInt_of.of_str s) as [z|]; split.
  - intros (m & [= <-] & ?). by exists z.
  - intros (m & [= <-] & ?). by exists z.
  - by intros (m & ? & _).
  - by intros (m & ? & _).
Qed.

Lemma py_int_PyFloat f lo hi :
  (∃ m, py_int (PyFloat f) = Returns m ∧ lo <= m <= hi)
  ↔ ∃ m, PyInt_of.of_float f = Returns m ∧ lo <= m <= hi.
Proof. done. Qed.

Lemma py_int_not_a_number v lo hi :
  not_a_number v = true →
  ¬ ∃ m, py_int v = Returns m ∧ lo <= m <= hi.
Proof. destruct v; try done; by intros _ (m & ? & _). Qed.

End Numeric.

Section Schema_facts.
Context `{Runtime} `{HomeAssistant} `{Const}.
Implicit Types doc section out : gmap string PyVal.

(** The validator of a numeric key. *)
Lemma candidate_numeric key lo hi :
  range_of key = Some (lo, hi) →
  candidate DOMAIN_SCHEMA key = Some (All [Coerce int; Range lo hi]).
Proof.
  unfold range_of, brightness_keys, color_temp_keys.
  repeat case_bool_decide; intros [= <- <-];
    repeat match goal with
           | Hin : _ ∈ _ :: _ |- _ => apply elem_of_cons in Hin as [->|Hin]
           | Hin : _ ∈ [] |- _ => by apply elem_of_nil in Hin
           end; reflexivity.
Qed.

Lemma validate_item_numeric key lo hi v n :
  range_of key = Some (lo, hi) →
  py_int v = Returns n → lo <= n <= hi →
  validate_item PREVENT_EXTRA DOMAIN_SCHEMA key v = Valid (Some (PyInt n)).
Proof.
  intros Hkey Hn Hr. unfold validate_item, compile_scalar.
  rewrite (candidate_numeric _ _ _ Hkey).
  assert (All [Coerce int; Range lo hi] v = Valid (PyInt n)) as ->; [|done].
  apply coerce_range_Valid. by exists n.
Qed.

Lemma item_ok_numeric key lo hi v :
  range_of key = Some (lo, hi) →
  item_ok PREVENT_EXTRA DOMAIN_SCHEMA key v
  ↔ ∃ n, py_int v = Returns n ∧ lo <= n <= hi.
Proof.
  intros Hkey. rewrite <- coerce_range_is_valid.
  unfold item_ok, validate_item, compile_scalar.
  rewrite (candidate_numeric _ _ _ Hkey).
  destruct (coerce_range_errors lo hi v) as [Hempty Hvalue].
  destruct (All _ v) as [out|[|e es]|[]]; simpl; try done.
  - split; [by intros [_ ?] | done].
  - split; [by intros [? _] | done].
  - split; [by intros [? _] | done].
Qed.

(** *** The top-level schema *)

Lemma outer_extra k v :
  k ≠ DOMAIN →
  validate_item ALLOW_EXTRA
    [(Plain DOMAIN, Schema DOMAIN_SCHEMA PREVENT_EXTRA)] k v
  = Valid (Some v).
Proof.
  intros Hk. unfold validate_item, candidate.
  change (schema (Plain DOMAIN)) with DOMAIN.
  destruct (String.eqb DOMAIN k) eqn:Heq; [|done].
  apply String.eqb_eq in Heq. congruence.
Qed.

Lemma outer_section v :
  validate_item ALLOW_EXTRA
    [(Plain DOMAIN, Schema DOMAIN_SCHEMA PREVENT_EXTRA)] DOMAIN v
  = match Schema DOMAIN_SCHEMA PREVENT_EXTRA v with
    | Valid cval => Valid (Some cval)
    | Invalid [] => Valid None
    | Invalid es => Invalid (prepend DOMAIN <$> es)
    | Raised e => Raised e
    end.
Proof.
  unfold validate_item, candidate.
  change (schema (Plain DOMAIN)) with DOMAIN. rewrite String.eqb_refl.
  by rewrite compile_scalar_Schema.
Qed.

Lemma imap_outer doc w :
  <[DOMAIN:=w]>
    (map_imap
       (λ k v, kept (validate_item ALLOW_EXTRA
          [(Plain DOMAIN, Schema DOMAIN_SCHEMA PREVENT_EXTRA)] k v))
       doc)
  = <[DOMAIN:=w]> doc.
Proof.
  apply map_eq. intros k. destruct (decide (k = DOMAIN)) as [->|Hk].
  - by rewrite !lookup_insert_eq.
  - rewrite !lookup_insert_ne by done. rewrite map_lookup_imap.
    destruct (doc !! k) as [v|]; [|done]. simpl. by rewrite outer_extra.
Qed.

(** The document is validated by validating its section; the other
    top-level keys are kept as they are. *)
Lemma CONFIG_SCHEMA_Valid doc section result :
  CONFIG_SCHEMA (with_section doc section) = Valid result
  ↔ ∃ out, validate_mapping PREVENT_EXTRA DOMAIN_SCHEMA section = Valid out
           ∧ result = with_section doc out.
Proof.
  unfold CONFIG_SCHEMA, with_section. simpl.
  set (outer := [(Plain DOMAIN, Schema DOMAIN_SCHEMA PREVENT_EXTRA)]).
  assert (∀ data, key_value_map outer data = data) as Hkvm.
  { intros data. unfold key_value_map. simpl.
    apply (right_id_L ∅ (∪)). }
  split.
  - destruct (validate_mapping ALLOW_EXTRA outer _) as [o| |] eqn:Hv;
      try done.
    intros [= <-]. apply validate_mapping_Valid in Hv as (Hok & _ & ->).
    rewrite Hkvm in *. apply map_Forall_insert_1_1 in Hok as [Hr He].
    rewrite map_imap_insert. subst outer. rewrite outer_section in *.
    simpl in *.
    destruct (validate_mapping PREVENT_EXTRA DOMAIN_SCHEMA section)
      as [out|[|e es]|e] eqn:Hs; simpl in *; try done.
    + exists out. split; [done|]. f_equal. apply imap_outer.
    + unfold validate_mapping in Hs. by repeat case_match.
  - intros (out & Hs & ->).
    assert (validate_mapping ALLOW_EXTRA outer
              (<[DOMAIN:=PyDict section]> doc)
            = Valid (<[DOMAIN:=PyDict out]> doc)) as ->; [|done].
    apply validate_mapping_Valid. rewrite Hkvm. split_and!.
    + rewrite <- insert_delete_eq. apply map_Forall_insert_2.
      * unfold item_ok. subst outer. rewrite outer_section. simpl.
        by rewrite Hs.
      * intros k v [Hk _]%lookup_delete_Some. unfold item_ok. subst outer.
        by rewrite outer_extra.
    + done.
    + rewrite map_imap_insert. subst outer. rewrite outer_section. simpl.
      rewrite Hs. simpl. symmetry. apply imap_outer.
Qed.

Lemma is_valid_CONFIG_SCHEMA doc section :
  is_valid (CONFIG_SCHEMA (with_section doc section)) = true
  ↔ ∃ out, validate_mapping PREVENT_EXTRA DOMAIN_SCHEMA section = Valid out.
Proof.
  split.
  - destruct (CONFIG_SCHEMA _) as [result| |] eqn:Hv; try done. intros _.
    apply CONFIG_SCHEMA_Valid in Hv as (out & ? & _). by exists out.
  - intros [out Hout].
    assert (CONFIG_SCHEMA (with_section doc section)
            = Valid (with_section doc out)) as ->; [|done].
    apply CONFIG_SCHEMA_Valid. by exists out.
Qed.

(** In a valid configuration, a numeric key set to [v]: the
    configuration stays valid exactly when [int(v)] is in the key's
    range, and the validated configuration then holds that integer. *)
Lemma CONFIG_SCHEMA_numeric key lo hi doc section result v :
  range_of key = Some (lo, hi) →
  CONFIG_SCHEMA (with_section doc section) = Valid result →
  (is_valid (CONFIG_SCHEMA (with_section doc (<[key:=v]> section))) = true
   ↔ ∃ n, py_int v = Returns n ∧ lo <= n <= hi)
  ∧ ∀ n, py_int v = Returns n → lo <= n <= hi →
      ∃ out, result = with_section doc out
        ∧ CONFIG_SCHEMA (with_section doc (<[key:=v]> section))
          = Valid (with_section doc (<[key:=PyInt n]> out)).
Proof.
  intros Hkey (out & Hout & ->)%CONFIG_SCHEMA_Valid.
  assert (∀ n, py_int v = Returns n → lo <= n <= hi →
            CONFIG_SCHEMA (with_section doc (<[key:=v]> section))
            = Valid (with_section doc (<[key:=PyInt n]> out))) as Hset.
  { intros n Hn Hr. apply CONFIG_SCHEMA_Valid. eexists. split; [|done].
    apply validate_mapping_insert; [done|].
    by apply (validate_item_numeric key lo hi). }
  split.
  - split.
    + intros [out' Hout']%is_valid_CONFIG_SCHEMA.
      apply (item_ok_numeric key lo hi); [done|].
      apply (validate_mapping_item _ _ section). by rewrite Hout'.
    + intros (n & Hn & Hr). by rewrite (Hset n).
  - intros n Hn Hr. exists out. split; [done|]. by apply Hset.
Qed.

(** C2: for min_brightness, max_brightness and sleep_brightness, the
    validation of a configuration that is valid otherwise accepts a
    value if and only if [int] converts it to an integer of the closed
    range 1..100; every other value is rejected, and an accepted one
    is stored as that integer.  In particular an integer is accepted
    exactly when it lies in 1..100, a string exactly when [int] parses
    it to such an integer, a float exactly when its truncation is one,
    and what [int] does not take ([None], a list, a dict, a
    [timedelta]) is rejected. *)
Theorem CONFIG_SCHEMA_brightness_range key doc section result v :
  key ∈ brightness_keys →
  CONFIG_SCHEMA (with_section doc section) = Valid result →
  (is_valid (CONFIG_SCHEMA (with_section doc (<[key:=v]> section))) = true
   ↔ ∃ n, py_int v = Returns n ∧ 1 <= n <= 100)
  ∧ (∀ n, py_int v = Returns n → 1 <= n <= 100 →
       ∃ out, result = with_section doc out
         ∧ CONFIG_SCHEMA (with_section doc (<[key:=v]> section))
           = Valid (with_section doc (<[key:=PyInt n]> out)))
  ∧ (∀ n, v = PyInt n →
       (is_valid (CONFIG_SCHEMA (with_section doc (<[key:=v]> section)))
        = true ↔ 1 <= n <= 100))
  ∧ (∀ s, v = PyStr s →
       (is_valid (CONFIG_SCHEMA (with_section doc (<[key:=v]> section)))
        = true ↔ ∃ n, PyInt_of.of_str s = Some n ∧ 1 <= n <= 100))
  ∧ (∀ f, v = PyFloat f →
       (is_valid (CONFIG_SCHEMA (with_section doc (<[key:=v]> section)))
        = true ↔ ∃ n, PyInt_of.of_float f = Returns n ∧ 1 <= n <= 100))
  ∧ (not_a_number v = true →
     is_valid (CONFIG_SCHEMA (with_section doc (<[key:=v]> section)))
     = false).
Proof.
  intros Hkey Hvalid.
  assert (range_of key = Some (1, 100)) as Hrange.
  { unfold range_of. by rewrite bool_decide_eq_true_2. }
  destruct (CONFIG_SCHEMA_numeric key 1 100 doc section result v
              Hrange Hvalid) as [Hiff Hout].
  split_and!; [done | done | | | |].
  - intros n ->. rewrite Hiff. by apply py_int_PyInt.
  - intros s ->. rewrite Hiff. by apply py_int_PyStr.
  - intros f ->. rewrite Hiff. by apply py_int_PyFloat.
  - intros Hv. apply not_true_is_false. rewrite Hiff.
    by apply py_int_not_a_number.
Qed.

(** C3: for min_color_temp, max_color_temp and sleep_color_temp, the
    validation of a configuration that is valid otherwise accepts a
    value if and only if [int] converts it to an integer of the closed
    range 1000..10000; every other value is rejected, and an accepted
    one is stored as that integer.  In particular an integer is
    accepted exactly when it lies in 1000..10000, a string exactly when
    [int] parses it to such an integer, a float exactly when its
    truncation is one, and what [int] does not take ([None], a list, a
    dict, a [timedelta]) is rejected. *)
Theorem CONFIG_SCHEMA_color_temp_range key doc section result v :
  key ∈ color_temp_keys →
  CONFIG_SCHEMA (with_section doc section) = Valid result →
  (is_valid (CONFIG_SCHEMA (with_section doc (<[key:=v]> section))) = true
   ↔ ∃ n, py_int v = Returns n ∧ 1000 <= n <= 10000)
  ∧ (∀ n, py_int v = Returns n → 1000 <= n <= 10000 →
       ∃ out, result = with_section doc out
         ∧ CONFIG_SCHEMA (with_section doc (<[key:=v]> section))
           = Valid (with_section doc (<[key:=PyInt n]> out)))
  ∧ (∀ n, v = PyInt n →
       (is_valid (CONFIG_SCHEMA (with_section doc (<[key:=v]> section)))
        = true ↔ 1000 <= n <= 10000))
  ∧ (∀ s, v = PyStr s →
       (is_valid (CONFIG_SCHEMA (with_section doc (<[key:=v]> section)))
        = true ↔ ∃ n, PyInt_of.of_str s = Some n ∧ 1000 <= n <= 10000))
  ∧ (∀ f, v = PyFloat f →
       (is_valid (CONFIG_SCHEMA (with_section doc (<[key:=v]> section)))
        = true
        ↔ ∃ n, PyInt_of.of_float f = Returns n ∧ 1000 <= n <= 10000))
  ∧ (not_a_number v = true →
     is_valid (CONFIG_SCHEMA (with_section doc (<[key:=v]> section)))
     = false).
Proof.
  intros Hkey Hvalid.
  assert (range_of key = Some (1000, 10000)) as Hrange.
  { unfold range_of. rewrite bool_decide_eq_false_2.
    - by rewrite bool_decide_eq_true_2.
    - revert Hkey. unfold color_temp_keys, brightness_keys.
      rewrite !elem_of_cons, !elem_of_nil.
      intros [->|[->|[->|[]]]] [Hb|[Hb|[Hb|[]]]]; discriminate Hb. }
  destruct (CONFIG_SCHEMA_numeric key 1000 10000 doc section result v
              Hrange Hvalid) as [Hiff Hout].
  split_and!; [done | done | | | |].
  - intros n ->. rewrite Hiff. by apply py_int_PyInt.
  - intros s ->. rewrite Hiff. by apply py_int_PyStr.
  - intros f ->. rewrite Hiff. by apply py_int_PyFloat.
  - intros Hv. apply not_true_is_false. rewrite Hiff.
    by apply py_int_not_a_number.
Qed.

(** C1, as the code has it: the four bounds are validated one by one,
    each against its own range, and a minimum is never compared with
    its maximum: in a valid configuration the brightness bounds can be
    set to any integers of 1..100 and the color temperature bounds to
    any integers of 1000..10000, the minimum above the maximum or not,
    and the configuration stays valid and holds these integers. *)
Theorem CONFIG_SCHEMA_bounds_unrelated doc section result a b c d :
  CONFIG_SCHEMA (with_section doc section) = Valid result →
  1 <= a <= 100 → 1 <= b <= 100 →
  1000 <= c <= 10000 → 1000 <= d <= 10000 →
  ∃ out, result = with_section doc out
    ∧ CONFIG_SCHEMA
        (with_section doc
           (<[CONF_MIN_BRIGHTNESS:=PyInt a]>
              (<[CONF_MAX_BRIGHTNESS:=PyInt b]>
                 (<[CONF_MIN_COLOR_TEMP:=PyInt c]>
                    (<[CONF_MAX_COLOR_TEMP:=PyInt d]> section)))))
      = Valid
          (with_section doc
             (<[CONF_MIN_BRIGHTNESS:=PyInt a]>
                (<[CONF_MAX_BRIGHTNESS:=PyInt b]>
                   (<[CONF_MIN_COLOR_TEMP:=PyInt c]>
                      (<[CONF_MAX_COLOR_TEMP:=PyInt d]> out))))).
Proof.
  intros (out & Hout & ->)%CONFIG_SCHEMA_Valid Ha Hb Hc Hd.
  exists out. split; [done|]. apply CONFIG_SCHEMA_Valid.
  eexists. split; [|done].
  repeat (apply validate_mapping_insert;
          [|by eapply validate_item_numeric]).
  done.
Qed.

(** C8: keys beside the integration's at the top level are allowed: a
    document without the integration's key is valid as it is, whatever
    its keys; and whether a document with a section for the integration
    is valid depends on that section alone, not on the other keys. *)
Theorem CONFIG_SCHEMA_extra_keys doc :
  (doc !! DOMAIN = None → CONFIG_SCHEMA (PyDict doc) = Valid (PyDict doc))
  ∧ ∀ section,
      is_valid (CONFIG_SCHEMA (with_section doc section))
      = is_valid (Schema DOMAIN_SCHEMA PREVENT_EXTRA (PyDict section)).
Proof.
  split.
  - intros Hnone. unfold CONFIG_SCHEMA. simpl.
    set (outer := [(Plain DOMAIN, Schema DOMAIN_SCHEMA PREVENT_EXTRA)]).
    assert (validate_mapping ALLOW_EXTRA outer doc = Valid doc) as ->; [|done].
    apply validate_mapping_Valid.
    assert (key_value_map outer doc = doc) as ->.
    { unfold key_value_map. simpl. apply (right_id_L ∅ (∪)). }
    assert (∀ k v, doc !! k = Some v →
              validate_item ALLOW_EXTRA outer k v = Valid (Some v)) as Hitem.
    { intros k v Hk. apply outer_extra. congruence. }
    split_and!.
    + intros k v Hk. unfold item_ok. by rewrite (Hitem k v Hk).
    + done.
    + apply map_eq. intros k. rewrite map_lookup_imap.
      destruct (doc !! k) as [v|] eqn:Hk; [|done]. simpl.
      by rewrite (Hitem k v Hk).
  - intros section. apply eq_true_iff_eq.
    rewrite is_valid_CONFIG_SCHEMA. simpl.
    destruct (validate_mapping PREVENT_EXTRA DOMAIN_SCHEMA section)
      as [out| |]; simpl; split; try done; try (by intros [? ?]).
    by exists out.
Qed.

(** C7: [_SUPPORT_OPTS] maps brightness, color_temp, color and
    transition to the host's SUPPORT_BRIGHTNESS, SUPPORT_COLOR_TEMP,
    SUPPORT_COLOR and SUPPORT_TRANSITION, and has no other entry. *)
Theorem SUPPORT_OPTS_entries k flag :
  _SUPPORT_OPTS !! k = Some flag
  ↔ (k = "brightness" ∧ flag = SUPPORT_BRIGHTNESS)
    ∨ (k = "color_temp" ∧ flag = SUPPORT_COLOR_TEMP)
    ∨ (k = "color" ∧ flag = SUPPORT_COLOR)
    ∨ (k = "transition" ∧ flag = SUPPORT_TRANSITION).
Proof.
  unfold _SUPPORT_OPTS. simpl.
  rewrite !lookup_insert_Some, lookup_empty. split.
  - intros [[<- <-]|[? [[<- <-]|[? [[<- <-]|[? [[<- <-]|[_ ?]]]]]]]];
      [tauto..|done].
  - intros [[-> ->]|[[-> ->]|[[-> ->]|[-> ->]]]].
    + by left.
    + right. split; [done|]. by left.
    + right. split; [done|]. right. split; [done|]. by left.
    + right. split; [done|]. right. split; [done|]. right.
      split; [done|]. by left.
Qed.

(** C10: [async_setup] returns [True] for every configuration; with the
    integration's key in the configuration it creates one task, the
    import flow on the data under that key, and without the key it
    leaves [hass] as it was. *)
Theorem async_setup_returns_True config hass :
  async_setup config hass
  = (true,
     match config !! DOMAIN with
     | Some data =>
         mk_hass
           (tasks hass
              ++ [flow_async_init DOMAIN
                    {[ "source" := PyStr SOURCE_IMPORT ]} data])
     | None => hass
     end).
Proof. unfold async_setup. by destruct (config !! DOMAIN). Qed.

End Schema_facts.

(** ** Decimal numerals *)

Lemma digit_value_char d :
  is_digit d → PyInt_of.digit_value (digit_char d) = Some d.
Proof. intros Hd. digit_cases d Hd; reflexivity. Qed.

Lemma scan_numeral ds acc n :
  Forall is_digit ds →
  PyInt_of.scan_digits (numeral ds) PyInt_of.PDigit acc n
  = Some (fold_left (λ acc d, 10 * acc + d) ds acc, (n + length ds)%nat,
          EmptyString).
Proof.
  intros Hds. revert acc n.
  induction Hds as [|d ds Hd Hds IH]; intros acc n; simpl.
  - by rewrite Nat.add_0_r.
  - rewrite (digit_value_char d Hd), IH. by rewrite Nat.add_succ_r.
Qed.

(** [int] reads a numeral as the number it denotes, unless it is longer
    than the interpreter's limit. *)
Lemma of_str_numeral `{Runtime} ds :
  ds ≠ [] → Forall is_digit ds →
  (int_max_str_digits = 0 ∨ length ds <= int_max_str_digits)%nat →
  PyInt_of.of_str (numeral ds) = Some (numeral_value ds).
Proof.
  intros Hne Hds Hlimit. destruct ds as [|d ds]; [done|].
  inversion Hds as [|?? Hd Hds']; subst.
  unfold PyInt_of.of_str, numeral_value.
  assert (PyInt_of.take_sign (PyInt_of.skip_space (numeral (d :: ds)))
          = (false, numeral (d :: ds))) as ->.
  { simpl. digit_cases d Hd; reflexivity. }
  simpl. rewrite (digit_value_char d Hd), (scan_numeral ds _ _ Hds').
  assert ((640 <? 1 + length ds)%nat && (0 <? int_max_str_digits)%nat
          && (int_max_str_digits <? 1 + length ds)%nat = false) as ->.
  { simpl in Hlimit. destruct Hlimit as [->|Hle].
    - by rewrite andb_false_r.
    - apply andb_false_iff. right. apply Nat.ltb_ge. lia. }
  done.
Qed.

(** * The photometric curve *)

Section Curve.
Import PhotometricCurve.


Lemma clamp_bounds lo hi x : lo <= hi → lo <= clamp lo hi x <= hi.
Proof. unfold clamp. lia. Qed.





(** C4: for every time and every configuration whose minima do not
    exceed the maxima, the brightness of the computed setting lies
    between min_brightness and max_brightness and its color
    temperature between min_color_temp and max_color_temp. *)
Theorem compute_within_bounds now anchors config :
  valid config →
  min_brightness config
    <= brightness_percent (compute now anchors config)
    <= max_brightness config
  ∧ min_color_temp config
      <= color_temperature_kelvin (compute now anchors config)
      <= max_color_temp config.
Proof.
  intros [Hb Hc]. simpl. unfold brightness, color_temperature.
  split; by apply clamp_bounds.
Qed.




End Curve.

(** * The statements on the example installation *)

Section On_the_example.
#[local] Existing Instance Example.python.
#[local] Existing Instance Example.home_assistant.
#[local] Existing Instance Example.const.

Lemma example_defaults_valid :
  CONFIG_SCHEMA (with_section ∅ ∅)
  = Valid (with_section ∅ Example.validated_defaults).
Proof. vm_compute. reflexivity. Qed.

(** C1 does not hold on the code: the section with min_brightness 80
    and max_brightness 20 is accepted, and the validated configuration
    keeps the minimum above the maximum. *)
Lemma CONFIG_SCHEMA_accepts_inverted_bounds :
  CONFIG_SCHEMA (with_section ∅ Example.inverted)
  = Valid (with_section ∅
             (<[CONF_MIN_BRIGHTNESS:=PyInt 80]>
                (<[CONF_MAX_BRIGHTNESS:=PyInt 20]>
                   Example.validated_defaults)))
  ∧ bounds_inverted
      (<[CONF_MIN_BRIGHTNESS:=PyInt 80]>
         (<[CONF_MAX_BRIGHTNESS:=PyInt 20]> Example.validated_defaults)).
Proof.
  split.
  - vm_compute. reflexivity.
  - exists 80, 20. split; [lia|]. left. split; reflexivity.
Qed.

Lemma CONFIG_SCHEMA_bounds_unrelated_witness :
  CONFIG_SCHEMA (with_section ∅ ∅)
  = Valid (with_section ∅ Example.validated_defaults)
  ∧ ∃ out, with_section ∅ Example.validated_defaults = with_section ∅ out
      ∧ CONFIG_SCHEMA
          (with_section ∅
             (<[CONF_MIN_BRIGHTNESS:=PyInt 80]>
                (<[CONF_MAX_BRIGHTNESS:=PyInt 20]>
                   (<[CONF_MIN_COLOR_TEMP:=PyInt 6000]>
                      (<[CONF_MAX_COLOR_TEMP:=PyInt 2000]> ∅)))))
        = Valid
            (with_section ∅
               (<[CONF_MIN_BRIGHTNESS:=PyInt 80]>
                  (<[CONF_MAX_BRIGHTNESS:=PyInt 20]>
                     (<[CONF_MIN_COLOR_TEMP:=PyInt 6000]>
                        (<[CONF_MAX_COLOR_TEMP:=PyInt 2000]> out))))).
Proof.
  split; [exact example_defaults_valid|].
  apply (CONFIG_SCHEMA_bounds_unrelated ∅ ∅ _ 80 20 6000 2000);
    [exact example_defaults_valid | lia..].
Defined.

Lemma CONFIG_SCHEMA_extra_keys_witness :
  CONFIG_SCHEMA (PyDict {[ "light" := PyList []; "logger" := PyNone ]})
  = Valid (PyDict {[ "light" := PyList []; "logger" := PyNone ]}).
Proof.
  apply (proj1 (CONFIG_SCHEMA_extra_keys
                  {[ "light" := PyList []; "logger" := PyNone ]})).
  reflexivity.
Defined.

End On_the_example.

Lemma compute_within_bounds_witness :
  let config := PhotometricCurve.mk_config 1 100 2700 5500 60 in
  let anchors := PhotometricCurve.mk_anchors 21600 64800 43200 0 in
  PhotometricCurve.valid config
  ∧ 1 <= PhotometricCurve.brightness_percent
           (PhotometricCurve.compute 30000 anchors config) <= 100
  ∧ 2700 <= PhotometricCurve.color_temperature_kelvin
              (PhotometricCurve.compute 30000 anchors config) <= 5500.
Proof.
  intros config anchors.
  assert (PhotometricCurve.valid config) as Hvalid
    by (unfold PhotometricCurve.valid; simpl; lia).
  split; [exact Hvalid|].
  exact (compute_within_bounds 30000 anchors config Hvalid).
Defined.


(** * Further properties of the schema *)

Section One_item.
Context (extra : extra_policy) (s : mapping_schema).
Implicit Types data kvm out : gmap string PyVal.

(** The items of a map in which [k] is set: the item under [k] stands
    somewhere among the items under the other keys. *)
Lemma map_to_list_insert_split kvm k v :
  ∃ l1 l2, map_to_list (<[k:=v]> kvm) = l1 ++ (k, v) :: l2
    ∧ ∀ k' v', (k', v') ∈ l1 ++ l2 → k' ≠ k ∧ kvm !! k' = Some v'.
Proof.
  assert ((k, v) ∈ map_to_list (<[k:=v]> kvm)) as Hin.
  { apply elem_of_map_to_list. by rewrite lookup_insert_eq. }
  apply list_elem_of_split in Hin as (l1 & l2 & Hsplit).
  exists l1, l2. split; [done|]. intros k' v' Hin'.
  pose proof (NoDup_fst_map_to_list (<[k:=v]> kvm)) as Hnodup.
  rewrite Hsplit, fmap_app, fmap_cons in Hnodup. simpl in Hnodup.
  apply NoDup_app in Hnodup as (_ & Hl1 & [Hl2 _]%NoDup_cons).
  assert (k' ≠ k) as Hne.
  { intros ->. apply elem_of_app in Hin' as [Hin'|Hin'].
    - apply (Hl1 k); [|left].
      by apply (list_elem_of_fmap_2 fst _ (k, v')).
    - apply Hl2. by apply (list_elem_of_fmap_2 fst _ (k, v')). }
  split; [done|].
  assert ((k', v') ∈ map_to_list (<[k:=v]> kvm)) as Hall.
  { rewrite Hsplit. apply elem_of_app in Hin' as [?|?].
    - apply elem_of_app. by left.
    - apply elem_of_app. right. by right. }
  apply elem_of_map_to_list in Hall. by rewrite lookup_insert_ne in Hall.
Qed.

(** The results of items that all pass hold no exception and no error. *)
Lemma results_ok l :
  (∀ k v, (k, v) ∈ l → item_ok extra s k v) →
  omap raised_of ((λ '(k, v), validate_item extra s k v) <$> l) = []
  ∧ concat (errors_of <$> ((λ '(k, v), validate_item extra s k v) <$> l))
    = [].
Proof.
  induction l as [|[k v] l IH]; [done|]. intros Hok. simpl.
  destruct (Hok k v) as [Hr He]; [left|]. rewrite Hr, He. simpl.
  apply IH. intros k' v' Hin. apply Hok. by right.
Qed.

(** A mapping all of whose other items pass and which misses no required
    key fails as the item under [k] fails: the exception of this item
    escapes, or its errors are the errors of the mapping. *)
Lemma validate_mapping_one_item data k v :
  (∀ k' v', k' ≠ k → key_value_map s data !! k' = Some v' →
            item_ok extra s k' v') →
  missing_required s (key_value_map s data) = [] →
  validate_mapping extra s (<[k:=v]> data)
  = match validate_item extra s k v with
    | Raised e => Raised e
    | Invalid (e :: es) => Invalid (e :: es)
    | _ => Valid (map_imap (λ k v, kept (validate_item extra s k v))
                    (<[k:=v]> (key_value_map s data)))
    end.
Proof.
  intros Hothers Hmissing. unfold validate_mapping.
  rewrite key_value_map_insert.
  rewrite (missing_required_insert _ _ _ _ Hmissing), app_nil_r.
  destruct (map_to_list_insert_split (key_value_map s data) k v)
    as (l1 & l2 & -> & Hrest).
  destruct (results_ok l1) as [Hr1 He1].
  { intros k' v' Hin. destruct (Hrest k' v') as [? ?]; [|by apply Hothers].
    apply elem_of_app. by left. }
  destruct (results_ok l2) as [Hr2 He2].
  { intros k' v' Hin. destruct (Hrest k' v') as [? ?]; [|by apply Hothers].
    apply elem_of_app. by right. }
  rewrite fmap_app, fmap_cons. cbv beta iota.
  set (r := validate_item extra s k v).
  set (rs1 := (λ '(k, v), validate_item extra s k v) <$> l1) in *.
  set (rs2 := (λ '(k, v), validate_item extra s k v) <$> l2) in *.
  assert (omap raised_of (rs1 ++ r :: rs2)
          = match raised_of r with Some e => [e] | None => [] end) as ->.
  { rewrite omap_app, Hr1.
    change (omap raised_of (r :: rs2))
      with (match raised_of r with
            | Some e => e :: omap raised_of rs2
            | None => omap raised_of rs2
            end).
    rewrite Hr2. by destruct (raised_of r). }
  assert (concat (errors_of <$> rs1 ++ r :: rs2) = errors_of r) as ->.
  { rewrite fmap_app, concat_app, He1, fmap_cons.
    change (concat (errors_of r :: (errors_of <$> rs2)))
      with (errors_of r ++ concat (errors_of <$> rs2)).
    rewrite He2. simpl. apply app_nil_r. }
  by destruct r as [o|[|e es]|e].
Qed.

(** A mapping never raises a [MultipleInvalid] without errors. *)
Lemma validate_mapping_errors data :
  validate_mapping extra s data ≠ Invalid [].
Proof.
  unfold validate_mapping. destruct (head _); [done|].
  by destruct (_ ++ _).
Qed.

(** Setting one key of a valid mapping: the mapping fails as the item
    under that key fails, and is valid with the output changed at that
    key alone otherwise. *)
Lemma validate_mapping_set data out k v :
  validate_mapping extra s data = Valid out →
  validate_mapping extra s (<[k:=v]> data)
  = match validate_item extra s k v with
    | Raised e => Raised e
    | Invalid (e :: es) => Invalid (e :: es)
    | Valid (Some v') => Valid (<[k:=v']> out)
    | _ => Valid (delete k out)
    end.
Proof.
  intros (Hok & Hmissing & ->)%validate_mapping_Valid.
  rewrite validate_mapping_one_item; [|by intros k' v' _; apply Hok|done].
  rewrite map_imap_insert.
  by destruct (validate_item extra s k v) as [[v'|]|[|e es]|e].
Qed.

End One_item.

Section Schema_reports.
Context `{Runtime} `{HomeAssistant} `{Const}.
Implicit Types doc section out : gmap string PyVal.

Lemma candidate_None s k : candidate s k = None ↔ k ∉ keys s.
Proof.
  induction s as [|[m f] s IH]; simpl.
  - split; [intros _; apply not_elem_of_nil | done].
  - rewrite not_elem_of_cons, <- IH.
    destruct (String.eqb_spec (schema m) k) as [->|Hne].
    + split; [done | by intros [? _]].
    + split; [by split | by intros [_ ?]].
Qed.

(** The top-level schema has no default and no required key, and every
    item beside the section passes. *)
Lemma outer_one_item doc v :
  Schema [(Plain DOMAIN, Schema DOMAIN_SCHEMA PREVENT_EXTRA)] ALLOW_EXTRA
    (PyDict (<[DOMAIN:=v]> doc))
  = match Schema DOMAIN_SCHEMA PREVENT_EXTRA v with
    | Valid cval => Valid (PyDict (<[DOMAIN:=cval]> doc))
    | Invalid [] => Valid (PyDict (delete DOMAIN doc))
    | Invalid es => Invalid (prepend DOMAIN <$> es)
    | Raised e => Raised e
    end.
Proof.
  set (outer := [(Plain DOMAIN, Schema DOMAIN_SCHEMA PREVENT_EXTRA)]).
  assert (∀ data, key_value_map outer data = data) as Hkvm.
  { intros data. unfold key_value_map. simpl. apply (right_id_L ∅ (∪)). }
  unfold Schema at 1.
  rewrite (validate_mapping_one_item ALLOW_EXTRA outer doc DOMAIN v).
  - rewrite Hkvm, map_imap_insert. subst outer. rewrite outer_section.
    destruct (Schema DOMAIN_SCHEMA PREVENT_EXTRA v) as [cval|[|e es]|e];
      simpl; try done.
    + by rewrite imap_outer.
    + do 2 f_equal. apply map_eq. intros k.
      destruct (decide (k = DOMAIN)) as [->|Hk].
      * by rewrite !lookup_delete_eq.
      * rewrite !lookup_delete_ne by done. rewrite map_lookup_imap.
        destruct (doc !! k) as [w|]; [|done]. simpl. by rewrite outer_extra.
  - intros k w Hk _. unfold item_ok. subst outer. by rewrite outer_extra.
  - done.
Qed.

(** The document fails as its section fails. *)
Lemma CONFIG_SCHEMA_section doc section :
  CONFIG_SCHEMA (with_section doc section)
  = match validate_mapping PREVENT_EXTRA DOMAIN_SCHEMA section with
    | Valid out => Valid (with_section doc out)
    | Invalid es => Invalid (prepend DOMAIN <$> es)
    | Raised e => Raised e
    end.
Proof.
  unfold CONFIG_SCHEMA, with_section. rewrite outer_one_item. simpl.
  pose proof (validate_mapping_errors PREVENT_EXTRA DOMAIN_SCHEMA section).
  by destruct (validate_mapping PREVENT_EXTRA DOMAIN_SCHEMA section)
    as [out|[|e es]|e].
Qed.

Lemma with_section_inj doc out out' :
  with_section doc out = with_section doc out' → out = out'.
Proof.
  unfold with_section. intros [= Heq].
  assert (<[DOMAIN:=PyDict out]> doc !! DOMAIN
          = <[DOMAIN:=PyDict out']> doc !! DOMAIN) as Hl by by rewrite Heq.
  rewrite !lookup_insert_eq in Hl. by injection Hl.
Qed.

Lemma CONFIG_SCHEMA_Valid_section doc section out :
  CONFIG_SCHEMA (with_section doc section) = Valid (with_section doc out)
  ↔ validate_mapping PREVENT_EXTRA DOMAIN_SCHEMA section = Valid out.
Proof.
  rewrite CONFIG_SCHEMA_section.
  destruct (validate_mapping PREVENT_EXTRA DOMAIN_SCHEMA section)
    as [o|es|e]; split; try done.
  - intros [= Heq].
    assert (o = out) as ->; [|done].
    apply (with_section_inj doc). unfold with_section. by rewrite Heq.
  - by intros [= ->].
Qed.

Lemma is_valid_section doc section :
  is_valid (CONFIG_SCHEMA (with_section doc section)) = true →
  ∃ out, validate_mapping PREVENT_EXTRA DOMAIN_SCHEMA section = Valid out.
Proof.
  rewrite CONFIG_SCHEMA_section.
  destruct (validate_mapping PREVENT_EXTRA DOMAIN_SCHEMA section)
    as [o|es|e]; try done. by exists o.
Qed.

(** What the item of a numeric key gives. *)
Lemma validate_item_numeric_eq key lo hi v :
  range_of key = Some (lo, hi) →
  validate_item PREVENT_EXTRA DOMAIN_SCHEMA key v
  = match py_int v with
    | Returns n =>
        if (lo <=? n) && (n <=? hi) then Valid (Some (PyInt n))
        else Invalid [mk_error [key] RangeInvalid]
    | Raises OverflowError => Raised OverflowError
    | Raises _ => Invalid [mk_error [key] CoerceInvalid]
    end.
Proof.
  intros Hkey. unfold validate_item, compile_scalar.
  rewrite (candidate_numeric _ _ _ Hkey), coerce_range_eq.
  destruct (py_int v) as [n|[]]; try done.
  by destruct ((lo <=? n) && (n <=? hi)).
Qed.

(** Every numeric key has a default. *)
Lemma defaults_numeric key lo hi :
  range_of key = Some (lo, hi) → is_Some (defaults DOMAIN_SCHEMA !! key).
Proof.
  unfold range_of, brightness_keys, color_temp_keys.
  repeat case_bool_decide; intros [= <- <-];
    repeat match goal with
           | Hin : _ ∈ _ :: _ |- _ => apply elem_of_cons in Hin as [->|Hin]
           | Hin : _ ∈ [] |- _ => by apply elem_of_nil in Hin
           end; eexists; reflexivity.
Qed.

(** X1: a document is validated through its section alone.  A valid
    section makes a valid document, whose other top-level entries are
    kept as they are; the errors of the section are the errors of the
    document, each with the integration's key put before its path; an
    exception that is no [vol.Invalid] escapes as it is. *)
Theorem CONFIG_SCHEMA_reports_section doc section :
  CONFIG_SCHEMA (with_section doc section)
  = match Schema DOMAIN_SCHEMA PREVENT_EXTRA (PyDict section) with
    | Valid out => Valid (PyDict (<[DOMAIN:=out]> doc))
    | Invalid es => Invalid (prepend DOMAIN <$> es)
    | Raised e => Raised e
    end.
Proof.
  rewrite CONFIG_SCHEMA_section. simpl.
  by destruct (validate_mapping PREVENT_EXTRA DOMAIN_SCHEMA section).
Qed.

(** X2: what is not a dict is rejected as such: a document that is not a
    dict with an error at the root, a section that is not a dict with an
    error at the integration's key, whatever else the document holds. *)
Theorem CONFIG_SCHEMA_not_a_dict v :
  is_dict v = false →
  CONFIG_SCHEMA v = Invalid [mk_error [] DictInvalid]
  ∧ ∀ doc, CONFIG_SCHEMA (PyDict (<[DOMAIN:=v]> doc))
           = Invalid [mk_error [DOMAIN] DictInvalid].
Proof.
  intros Hv. split.
  - by destruct v.
  - intros doc. unfold CONFIG_SCHEMA. rewrite outer_one_item.
    by destruct v.
Qed.

(** X3: a key the schema of the section does not have is never accepted;
    set in a valid configuration it is the one error reported, at the
    path of the key. *)
Theorem CONFIG_SCHEMA_unknown_key doc section key v :
  key ∉ keys DOMAIN_SCHEMA →
  is_valid (CONFIG_SCHEMA (with_section doc (<[key:=v]> section))) = false
  ∧ (is_valid (CONFIG_SCHEMA (with_section doc section)) = true →
     CONFIG_SCHEMA (with_section doc (<[key:=v]> section))
     = Invalid [mk_error [DOMAIN; key] ExtraKeysNotAllowed]).
Proof.
  intros Hkey%candidate_None.
  assert (validate_item PREVENT_EXTRA DOMAIN_SCHEMA key v
          = Invalid [mk_error [key] ExtraKeysNotAllowed]) as Hitem.
  { unfold validate_item. by rewrite Hkey. }
  split.
  - apply not_true_is_false. intros [out Hout]%is_valid_section.
    assert (is_valid (validate_mapping PREVENT_EXTRA DOMAIN_SCHEMA
                        (<[key:=v]> section)) = true) as Hvalid
      by by rewrite Hout.
    apply validate_mapping_item in Hvalid as [_ Herr].
    by rewrite Hitem in Herr.
  - intros [out Hout]%is_valid_section.
    rewrite CONFIG_SCHEMA_section, (validate_mapping_set _ _ _ _ _ _ Hout).
    by rewrite Hitem.
Qed.

(** X4: in a valid configuration, a numeric key set to a value that
    [int] converts to an integer outside the key's range gives the one
    error [RangeInvalid] at the path of the key, and a value [int]
    refuses with a [ValueError] or a [TypeError] gives the one error
    [CoerceInvalid] there. *)
Theorem CONFIG_SCHEMA_numeric_error key lo hi doc section v :
  range_of key = Some (lo, hi) →
  is_valid (CONFIG_SCHEMA (with_section doc section)) = true →
  (∀ n, py_int v = Returns n → ¬ lo <= n <= hi →
     CONFIG_SCHEMA (with_section doc (<[key:=v]> section))
     = Invalid [mk_error [DOMAIN; key] RangeInvalid])
  ∧ (∀ e, py_int v = Raises e → e ≠ OverflowError →
       CONFIG_SCHEMA (with_section doc (<[key:=v]> section))
       = Invalid [mk_error [DOMAIN; key] CoerceInvalid]).
Proof.
  intros Hkey [out Hout]%is_valid_section. split.
  - intros n Hn Hr.
    rewrite CONFIG_SCHEMA_section, (validate_mapping_set _ _ _ _ _ _ Hout).
    rewrite (validate_item_numeric_eq key lo hi v Hkey), Hn.
    destruct (Z.leb_spec lo n), (Z.leb_spec n hi); simpl; try done. lia.
  - intros e He Hne.
    rewrite CONFIG_SCHEMA_section, (validate_mapping_set _ _ _ _ _ _ Hout).
    rewrite (validate_item_numeric_eq key lo hi v Hkey), He.
    by destruct e.
Qed.

(** X5: the [OverflowError] of [int] is not caught: in a valid
    configuration, a numeric key set to a value [int] refuses with it (an
    infinite float) makes the validation raise this [OverflowError]
    instead of a [vol.Invalid]. *)
Theorem CONFIG_SCHEMA_overflow key lo hi doc section v :
  range_of key = Some (lo, hi) →
  is_valid (CONFIG_SCHEMA (with_section doc section)) = true →
  py_int v = Raises OverflowError →
  CONFIG_SCHEMA (with_section doc (<[key:=v]> section))
  = Raised OverflowError.
Proof.
  intros Hkey [out Hout]%is_valid_section Hv.
  rewrite CONFIG_SCHEMA_section, (validate_mapping_set _ _ _ _ _ _ Hout).
  by rewrite (validate_item_numeric_eq key lo hi v Hkey), Hv.
Qed.

(** X6: a key that has a default and is left out is validated as if it
    were given its default: same result, same errors. *)
Theorem CONFIG_SCHEMA_default doc section k d :
  section !! k = None →
  defaults DOMAIN_SCHEMA !! k = Some d →
  CONFIG_SCHEMA (with_section doc section)
  = CONFIG_SCHEMA (with_section doc (<[k:=d]> section)).
Proof.
  intros Hk Hd. rewrite !CONFIG_SCHEMA_section.
  by rewrite (validate_mapping_default _ _ _ _ _ Hk Hd).
Qed.

(** X7: the validated section holds no key that was neither given nor
    has a default. *)
Theorem CONFIG_SCHEMA_output_keys doc section out k :
  CONFIG_SCHEMA (with_section doc section) = Valid (with_section doc out) →
  section !! k = None →
  defaults DOMAIN_SCHEMA !! k = None →
  out !! k = None.
Proof.
  intros (_ & _ & ->)%CONFIG_SCHEMA_Valid_section%validate_mapping_Valid
    Hk Hd.
  rewrite map_lookup_imap. unfold key_value_map.
  by rewrite (proj2 (lookup_union_None _ _ _) (conj Hk Hd)).
Qed.

(** X8: every validated section holds, under each of the six numeric
    keys, an integer of the key's range, given or default. *)
Theorem CONFIG_SCHEMA_numeric_output key lo hi doc section out :
  range_of key = Some (lo, hi) →
  CONFIG_SCHEMA (with_section doc section) = Valid (with_section doc out) →
  ∃ n, out !! key = Some (PyInt n) ∧ lo <= n <= hi.
Proof.
  intros Hkey (Hok & _ & ->)%CONFIG_SCHEMA_Valid_section%validate_mapping_Valid.
  destruct (defaults_numeric key lo hi Hkey) as [d Hd].
  assert (is_Some (key_value_map DOMAIN_SCHEMA section !! key)) as [v Hv].
  { unfold key_value_map. destruct (section !! key) as [w|] eqn:Hw.
    - exists w. by apply lookup_union_Some_l.
    - exists d. by rewrite lookup_union_r. }
  pose proof (Hok key v Hv) as Hitem.
  apply (item_ok_numeric key lo hi v Hkey) in Hitem as (n & Hn & Hr).
  exists n. split; [|done].
  rewrite map_lookup_imap, Hv. simpl.
  by rewrite (validate_item_numeric key lo hi v n Hkey Hn Hr).
Qed.

(** X9: each key is validated by itself: setting one key of a valid
    configuration to a value that keeps it valid leaves the validated
    value of every other key as it was. *)
Theorem CONFIG_SCHEMA_per_key doc section key v out out' :
  CONFIG_SCHEMA (with_section doc section) = Valid (with_section doc out) →
  CONFIG_SCHEMA (with_section doc (<[key:=v]> section))
  = Valid (with_section doc out') →
  ∀ k, k ≠ key → out' !! k = out !! k.
Proof.
  intros (_ & _ & ->)%CONFIG_SCHEMA_Valid_section%validate_mapping_Valid.
  intros (_ & _ & ->)%CONFIG_SCHEMA_Valid_section%validate_mapping_Valid.
  intros k Hk. rewrite !map_lookup_imap, key_value_map_insert.
  by rewrite lookup_insert_ne.
Qed.

End Schema_reports.

(** ** Lists of states *)

Section Sequences.
Implicit Types g : validator.

Lemma compile_scalar_Valid g v r :
  compile_scalar g v = Valid r ↔ g v = Valid r.
Proof. unfold compile_scalar. by destruct (g v) as [?|?|[]]. Qed.

Lemma compile_scalar_errors g v :
  g v ≠ Invalid [] → compile_scalar g v ≠ Invalid [].
Proof. unfold compile_scalar. by destruct (g v) as [?|?|[]]. Qed.

(** Once an element has failed, the list is not valid. *)
Lemma validate_sequence_failed g l out errors r :
  (∀ x, g x ≠ Invalid []) → errors ≠ [] →
  validate_sequence [g] l out errors ≠ Valid r.
Proof.
  intros Hg. revert out errors.
  induction l as [|v l IH]; intros out errors Herr; simpl.
  - by destruct errors.
  - pose proof (compile_scalar_errors g v (Hg v)) as Hne.
    destruct (compile_scalar g v) as [v'|es|e]; [by apply IH| |done].
    apply IH. by destruct errors.
Qed.

(** A list is valid exactly when each element is; the output lists what
    the validator makes of the elements, in their order. *)
Lemma validate_sequence_Valid g l out r :
  (∀ x, g x ≠ Invalid []) →
  validate_sequence [g] l out [] = Valid r
  ↔ ∃ l', Forall2 (λ x y, g x = Valid y) l l' ∧ r = PyList (out ++ l').
Proof.
  intros Hg. revert out. induction l as [|v l IH]; intros out; simpl.
  - split.
    + intros [= <-]. exists []. by rewrite app_nil_r.
    + intros (l' & ->%Forall2_nil_inv_l & ->). by rewrite app_nil_r.
  - pose proof (compile_scalar_errors g v (Hg v)) as Hne.
    pose proof (compile_scalar_Valid g v) as Hvalid.
    destruct (compile_scalar g v) as [v'|es|e].
    + rewrite IH. split.
      * intros (l' & Hl' & ->). exists (v' :: l'). split.
        -- constructor; [by apply Hvalid | done].
        -- by rewrite <- app_assoc.
      * intros (l'' & Hl'' & ->).
        apply Forall2_cons_inv_l in Hl'' as (y & l' & Hy & Hl' & ->).
        apply Hvalid in Hy as [= ->]. exists l'. split; [done|].
        by rewrite <- app_assoc.
    + split.
      * intros Hr. exfalso.
        apply (validate_sequence_failed g l out es r Hg); [|done].
        by destruct es.
      * intros (l'' & Hl'' & _).
        apply Forall2_cons_inv_l in Hl'' as (y & l' & Hy & _ & _).
        by apply Hvalid in Hy.
    + split; [done|].
      intros (l'' & Hl'' & _).
      apply Forall2_cons_inv_l in Hl'' as (y & l' & Hy & _ & _).
      by apply Hvalid in Hy.
Qed.

End Sequences.

Section Schema_items.
Context `{Runtime} `{HomeAssistant} `{Const}.
Implicit Types doc section out : gmap string PyVal.

(** The validator of the keys that hold states. *)
Lemma candidate_states key :
  key ∈ state_keys →
  candidate DOMAIN_SCHEMA key
  = Some (All [cv_ensure_list; Sequence [cv_string]]).
Proof.
  unfold state_keys. intros Hkey.
  apply elem_of_cons in Hkey as [->|Hkey]; [reflexivity|].
  apply elem_of_cons in Hkey as [->|Hkey]; [reflexivity|].
  by apply elem_of_nil in Hkey.
Qed.

(** [vol.All(cv.ensure_list, [cv.string])] returns the list of what
    [cv.string] makes of the elements of the list [cv.ensure_list]
    returns. *)
Lemma ensure_list_of_strings_Valid v r :
  (∀ x, cv_string x ≠ Invalid []) →
  All [cv_ensure_list; Sequence [cv_string]] v = Valid r
  ↔ ∃ l l', cv_ensure_list v = Valid (PyList l)
      ∧ Forall2 (λ x y, cv_string x = Valid y) l l'
      ∧ r = PyList l'.
Proof.
  intros Hstring. unfold All.
  pose proof (compile_scalar_Valid cv_ensure_list v) as Hlist.
  destruct (compile_scalar cv_ensure_list v) as [w|es|e].
  - pose proof (compile_scalar_Valid (Sequence [cv_string]) w) as Hseq.
    assert (∀ r', Sequence [cv_string] w = Valid r'
              ↔ ∃ l l', w = PyList l
                  ∧ Forall2 (λ x y, cv_string x = Valid y) l l'
                  ∧ r' = PyList l') as Hw.
    { intros r'. destruct w as [| | | | |l| |]; simpl;
        try (split; [done | by intros (? & ? & ? & _)]).
      rewrite (validate_sequence_Valid cv_string l [] r' Hstring). split.
      - intros (l' & Hl' & ->). by exists l, l'.
      - intros (l0 & l' & [= <-] & Hl' & ->). by exists l'. }
    destruct (compile_scalar (Sequence [cv_string]) w) as [r'|es|e].
    + split.
      * intros [= <-]. destruct (proj1 (Hw r')) as (l & l' & -> & Hl' & ->).
        { by apply Hseq. }
        exists l, l'. split_and!; [|done..]. by apply Hlist.
      * intros (l & l' & Hl%Hlist & Hl' & ->). injection Hl as ->.
        apply Hseq, Hw. by exists l, l'.
    + split; [done|].
      intros (l & l' & Hl%Hlist & Hl' & ->). injection Hl as ->.
      assert (Sequence [cv_string] (PyList l) = Valid (PyList l')) as Hs
        by (apply Hw; by exists l, l').
      by apply Hseq in Hs.
    + split; [done|].
      intros (l & l' & Hl%Hlist & Hl' & ->). injection Hl as ->.
      assert (Sequence [cv_string] (PyList l) = Valid (PyList l')) as Hs
        by (apply Hw; by exists l, l').
      by apply Hseq in Hs.
  - split; [done|]. by intros (l & l' & Hl%Hlist & _).
  - split; [done|]. by intros (l & l' & Hl%Hlist & _).
Qed.

(** X10: disable_state and sleep_state are validated element by element:
    the value is accepted exactly when [cv.ensure_list] makes a list of
    it and [cv.string] accepts every element of that list, and the
    validated value is the list of what [cv.string] returns, in the same
    order.  [cv.string] is taken to raise no [MultipleInvalid] without
    errors. *)
Theorem state_list_validated key v r :
  key ∈ state_keys →
  (∀ x, cv_string x ≠ Invalid []) →
  validate_item PREVENT_EXTRA DOMAIN_SCHEMA key v = Valid (Some r)
  ↔ ∃ l l', cv_ensure_list v = Valid (PyList l)
      ∧ Forall2 (λ x y, cv_string x = Valid y) l l'
      ∧ r = PyList l'.
Proof.
  intros Hkey Hstring.
  rewrite <- (ensure_list_of_strings_Valid v r Hstring).
  unfold validate_item. rewrite (candidate_states key Hkey).
  set (f := All [cv_ensure_list; Sequence [cv_string]]).
  pose proof (compile_scalar_Valid f v) as Hvalid.
  destruct (compile_scalar f v) as [cval|[|e es]|e].
  - rewrite <- Hvalid. split; [by intros [= ->] | by intros [= ->]].
  - rewrite <- Hvalid. split; done.
  - rewrite <- Hvalid. split; done.
  - rewrite <- Hvalid. split; done.
Qed.

(** No key of the section can be missing: the one [Required] key has a
    default. *)
Lemma missing_required_DOMAIN_SCHEMA section :
  missing_required DOMAIN_SCHEMA (key_value_map DOMAIN_SCHEMA section) = [].
Proof.
  unfold missing_required. simpl.
  assert (is_Some (key_value_map DOMAIN_SCHEMA section !! CONF_NAME))
    as [v ->]; [|done].
  unfold key_value_map. destruct (section !! CONF_NAME) as [w|] eqn:Hw.
  - exists w. by apply lookup_union_Some_l.
  - exists DEFAULT_NAME. by rewrite lookup_union_r.
Qed.

(** X11: validity is decided item by item.  A configuration is valid
    exactly when every value given in the section and the default of
    every key left out pass, each the validator of its own key: no key
    can be missing, [name] included, and no check looks at two keys
    together. *)
Theorem CONFIG_SCHEMA_item_wise doc section :
  is_valid (CONFIG_SCHEMA (with_section doc section)) = true
  ↔ ∀ k v, key_value_map DOMAIN_SCHEMA section !! k = Some v →
           item_ok PREVENT_EXTRA DOMAIN_SCHEMA k v.
Proof.
  rewrite CONFIG_SCHEMA_section.
  pose proof (is_valid_validate_mapping PREVENT_EXTRA DOMAIN_SCHEMA section)
    as Hiff.
  rewrite missing_required_DOMAIN_SCHEMA in Hiff.
  destruct (validate_mapping PREVENT_EXTRA DOMAIN_SCHEMA section)
    as [out|es|e]; simpl in *.
  - split; [intros _; by apply Hiff | done].
  - split; [done|]. intros Hok. by apply Hiff.
  - split; [done|]. intros Hok. by apply Hiff.
Qed.

(** X12: a numeric key given as a decimal numeral, leading zeros or
    not, that is not longer than the interpreter's digit limit and
    denotes a number of the key's range: the configuration stays valid
    and holds that number as an integer. *)
Theorem CONFIG_SCHEMA_numeral key lo hi doc section out ds :
  range_of key = Some (lo, hi) →
  CONFIG_SCHEMA (with_section doc section) = Valid (with_section doc out) →
  ds ≠ [] → Forall is_digit ds →
  (int_max_str_digits = 0 ∨ length ds <= int_max_str_digits)%nat →
  lo <= numeral_value ds <= hi →
  CONFIG_SCHEMA (with_section doc (<[key:=PyStr (numeral ds)]> section))
  = Valid (with_section doc (<[key:=PyInt (numeral_value ds)]> out)).
Proof.
  intros Hkey Hout%CONFIG_SCHEMA_Valid_section Hne Hds Hlimit Hr.
  apply CONFIG_SCHEMA_Valid_section.
  rewrite (validate_mapping_set _ _ _ _ _ _ Hout).
  rewrite (validate_item_numeric key lo hi _ (numeral_value ds)); try done.
  simpl. by rewrite of_str_numeral.
Qed.

(** X13: setting the component up and then an entry of it: both return
    [True]; the tasks there were are kept, in their order, the import
    flow comes after them when the configuration has the integration's
    key, and the forwarding of the entry to the switch platform comes
    last. *)
Theorem set_up_tasks config config_entry hass :
  bind (async_setup config)
    (λ r, bind (async_setup_entry config_entry) (λ r', ret (r, r'))) hass
  = ((true, true),
     mk_hass
       (tasks hass
          ++ match config !! DOMAIN with
             | Some data =>
                 [flow_async_init DOMAIN
                    {[ "source" := PyStr SOURCE_IMPORT ]} data]
             | None => []
             end
          ++ [async_forward_entry_setup config_entry "switch"])).
Proof.
  unfold async_setup, async_setup_entry, async_create_task, ret, bind.
  destruct (config !! DOMAIN) as [data|]; simpl.
  - by rewrite <- app_assoc.
  - done.
Qed.

(** C9: for each of the six numeric keys, a value given as a decimal
    string is accepted in a configuration that is valid otherwise, and
    the validated configuration holds the integer the string denotes:
    so for a numeral, written with digits alone, that denotes a number
    of the key's range (and is not longer than the interpreter's digit
    limit), and so for every string that [int] parses to a number of
    the range. *)
Theorem CONFIG_SCHEMA_decimal_string key lo hi doc section result :
  range_of key = Some (lo, hi) →
  CONFIG_SCHEMA (with_section doc section) = Valid result →
  ∃ out, result = with_section doc out
    ∧ (∀ ds, ds ≠ [] → Forall is_digit ds →
         (int_max_str_digits = 0 ∨ length ds <= int_max_str_digits)%nat →
         lo <= numeral_value ds <= hi →
         CONFIG_SCHEMA
           (with_section doc (<[key:=PyStr (numeral ds)]> section))
         = Valid (with_section doc
                    (<[key:=PyInt (numeral_value ds)]> out)))
    ∧ (∀ s n, PyInt_of.of_str s = Some n → lo <= n <= hi →
         CONFIG_SCHEMA (with_section doc (<[key:=PyStr s]> section))
         = Valid (with_section doc (<[key:=PyInt n]> out))).
Proof.
  intros Hkey Hvalid.
  destruct (proj1 (CONFIG_SCHEMA_Valid doc section result) Hvalid)
    as (out & Hout & ->).
  assert (∀ s n, PyInt_of.of_str s = Some n → lo <= n <= hi →
            CONFIG_SCHEMA (with_section doc (<[key:=PyStr s]> section))
            = Valid (with_section doc (<[key:=PyInt n]> out))) as Hstr.
  { intros s n Hs Hr. apply CONFIG_SCHEMA_Valid_section.
    rewrite (validate_mapping_set _ _ _ _ _ _ Hout).
    rewrite (validate_item_numeric key lo hi _ n); try done.
    simpl. by rewrite Hs. }
  exists out. split_and!; [done| |done].
  intros ds Hne Hds Hlimit Hr. apply Hstr; [|done].
  by apply of_str_numeral.
Qed.

(** With the interval left out, the validated configuration holds what
    [cv.time_period] makes of the default. *)
Lemma CONFIG_SCHEMA_interval_omitted doc section d :
  section !! CONF_INTERVAL = None →
  cv_time_period DEFAULT_INTERVAL = Valid d →
  (∀ k v, k ≠ CONF_INTERVAL →
          key_value_map DOMAIN_SCHEMA section !! k = Some v →
          item_ok PREVENT_EXTRA DOMAIN_SCHEMA k v) →
  ∃ out, CONFIG_SCHEMA (with_section doc section)
         = Valid (with_section doc out)
    ∧ out !! CONF_INTERVAL = Some d.
Proof.
  intros Hnone Hdefault Hothers.
  assert (validate_item PREVENT_EXTRA DOMAIN_SCHEMA CONF_INTERVAL
            DEFAULT_INTERVAL = Valid (Some d)) as Hitem.
  { unfold validate_item.
    change (candidate DOMAIN_SCHEMA CONF_INTERVAL) with (Some cv_time_period).
    cbv beta iota. unfold compile_scalar. by rewrite Hdefault. }
  assert (key_value_map DOMAIN_SCHEMA section !! CONF_INTERVAL
          = Some DEFAULT_INTERVAL) as Hkvm.
  { unfold key_value_map. by rewrite lookup_union_r. }
  eexists. split.
  - apply CONFIG_SCHEMA_Valid_section, validate_mapping_Valid.
    split_and!; [|apply missing_required_DOMAIN_SCHEMA|reflexivity].
    intros k v Hk. destruct (decide (k = CONF_INTERVAL)) as [->|Hne].
    + rewrite Hkvm in Hk. injection Hk as <-.
      unfold item_ok. by rewrite Hitem.
    + by apply Hothers.
  - rewrite map_lookup_imap, Hkvm. simpl. by rewrite Hitem.
Qed.

(** C6, on the value the specification gives the default (90 s, as
    [cv.time_period] reads [DEFAULT_INTERVAL]): a configuration that
    leaves the interval key out and whose other values, given or
    default, each pass the validator of their key is valid, and the
    validated configuration holds an interval of 90 s. *)
Theorem CONFIG_SCHEMA_interval_default doc section :
  section !! CONF_INTERVAL = None →
  default_interval_90s →
  (∀ k v, k ≠ CONF_INTERVAL →
          key_value_map DOMAIN_SCHEMA section !! k = Some v →
          item_ok PREVENT_EXTRA DOMAIN_SCHEMA k v) →
  ∃ out, CONFIG_SCHEMA (with_section doc section)
         = Valid (with_section doc out)
    ∧ out !! CONF_INTERVAL = Some (PyTimedelta 90000000).
Proof.
  intros Hnone Hdefault Hothers.
  by apply CONFIG_SCHEMA_interval_omitted.
Qed.

End Schema_items.

(** * The further properties on the example installation *)

Section Further_on_the_example.
#[local] Existing Instance Example.python.
#[local] Existing Instance Example.home_assistant.
#[local] Existing Instance Example.const.

Lemma example_is_valid :
  is_valid (CONFIG_SCHEMA (with_section ∅ ∅)) = true.
Proof. vm_compute. reflexivity. Qed.

Lemma CONFIG_SCHEMA_not_a_dict_witness :
  is_dict PyNone = false
  ∧ CONFIG_SCHEMA PyNone = Invalid [mk_error [] DictInvalid]
  ∧ CONFIG_SCHEMA (PyDict (<[DOMAIN:=PyNone]> ∅))
    = Invalid [mk_error [DOMAIN] DictInvalid].
Proof.
  split; [reflexivity|].
  destruct (CONFIG_SCHEMA_not_a_dict PyNone eq_refl) as [Hroot Hsection].
  split; [exact Hroot | exact (Hsection ∅)].
Defined.

Lemma CONFIG_SCHEMA_unknown_key_witness :
  ("colour" ∉ keys DOMAIN_SCHEMA)
  ∧ CONFIG_SCHEMA (with_section ∅ (<["colour":=PyStr "red"]> ∅))
    = Invalid [mk_error [DOMAIN; "colour"] ExtraKeysNotAllowed].
Proof.
  assert ("colour" ∉ keys DOMAIN_SCHEMA) as Hkey.
  { apply (bool_decide_unpack _). vm_compute. exact I. }
  split; [exact Hkey|].
  exact (proj2 (CONFIG_SCHEMA_unknown_key ∅ ∅ "colour" (PyStr "red") Hkey)
           example_is_valid).
Defined.

Lemma CONFIG_SCHEMA_numeric_error_witness :
  CONFIG_SCHEMA (with_section ∅ (<[CONF_MAX_BRIGHTNESS:=PyInt 150]> ∅))
  = Invalid [mk_error [DOMAIN; CONF_MAX_BRIGHTNESS] RangeInvalid]
  ∧ CONFIG_SCHEMA (with_section ∅ (<[CONF_MAX_BRIGHTNESS:=PyStr "dim"]> ∅))
    = Invalid [mk_error [DOMAIN; CONF_MAX_BRIGHTNESS] CoerceInvalid]
  ∧ CONFIG_SCHEMA
      (with_section ∅
         (<[CONF_MAX_BRIGHTNESS:=PyStr (String "028" "500")]> ∅))
    = Invalid [mk_error [DOMAIN; CONF_MAX_BRIGHTNESS] CoerceInvalid].
Proof.
  split_and!.
  - apply (proj1 (CONFIG_SCHEMA_numeric_error CONF_MAX_BRIGHTNESS 1 100 ∅ ∅
                    (PyInt 150) eq_refl example_is_valid) 150);
      [reflexivity | lia].
  - apply (proj2 (CONFIG_SCHEMA_numeric_error CONF_MAX_BRIGHTNESS 1 100 ∅ ∅
                    (PyStr "dim") eq_refl example_is_valid) ValueError);
      [reflexivity | discriminate].
  - apply (proj2 (CONFIG_SCHEMA_numeric_error CONF_MAX_BRIGHTNESS 1 100 ∅ ∅
                    (PyStr (String "028" "500")) eq_refl example_is_valid)
             ValueError);
      [reflexivity | discriminate].
Defined.

Lemma CONFIG_SCHEMA_overflow_witness :
  py_int (PyFloat infinity) = Raises OverflowError
  ∧ CONFIG_SCHEMA
      (with_section ∅ (<[CONF_MIN_COLOR_TEMP:=PyFloat infinity]> ∅))
    = Raised OverflowError.
Proof.
  split; [reflexivity|].
  apply (CONFIG_SCHEMA_overflow CONF_MIN_COLOR_TEMP 1000 10000 ∅ ∅
           (PyFloat infinity) eq_refl example_is_valid).
  reflexivity.
Defined.

Lemma CONFIG_SCHEMA_default_witness :
  defaults DOMAIN_SCHEMA !! CONF_TRANSITION = Some (PyInt 60)
  ∧ CONFIG_SCHEMA (with_section ∅ ∅)
    = CONFIG_SCHEMA (with_section ∅ (<[CONF_TRANSITION:=PyInt 60]> ∅)).
Proof.
  split; [reflexivity|].
  apply (CONFIG_SCHEMA_default ∅ ∅ CONF_TRANSITION (PyInt 60));
    reflexivity.
Defined.

Lemma CONFIG_SCHEMA_output_keys_witness :
  defaults DOMAIN_SCHEMA !! CONF_SLEEP_ENTITY = None
  ∧ Example.validated_defaults !! CONF_SLEEP_ENTITY = None.
Proof.
  split; [reflexivity|].
  apply (CONFIG_SCHEMA_output_keys ∅ ∅ Example.validated_defaults
           CONF_SLEEP_ENTITY example_defaults_valid);
    reflexivity.
Defined.

Lemma CONFIG_SCHEMA_numeric_output_witness :
  ∃ n, Example.validated_defaults !! CONF_SLEEP_COLOR_TEMP = Some (PyInt n)
    ∧ 1000 <= n <= 10000.
Proof.
  exact (CONFIG_SCHEMA_numeric_output CONF_SLEEP_COLOR_TEMP 1000 10000 ∅ ∅
           Example.validated_defaults eq_refl example_defaults_valid).
Defined.

Lemma example_brighter_valid :
  CONFIG_SCHEMA (with_section ∅ (<[CONF_MIN_BRIGHTNESS:=PyStr "80"]> ∅))
  = Valid (with_section ∅
             (<[CONF_MIN_BRIGHTNESS:=PyInt 80]> Example.validated_defaults)).
Proof. vm_compute. reflexivity. Qed.

Lemma CONFIG_SCHEMA_per_key_witness :
  (<[CONF_MIN_BRIGHTNESS:=PyInt 80]> Example.validated_defaults)
    !! CONF_MAX_BRIGHTNESS
  = Example.validated_defaults !! CONF_MAX_BRIGHTNESS.
Proof.
  apply (CONFIG_SCHEMA_per_key ∅ ∅ CONF_MIN_BRIGHTNESS (PyStr "80")
           Example.validated_defaults _
           example_defaults_valid example_brighter_valid).
  discriminate.
Defined.

Lemma state_list_validated_witness :
  (∀ x, cv_string x ≠ Invalid [])
  ∧ validate_item PREVENT_EXTRA DOMAIN_SCHEMA CONF_DISABLE_STATE (PyStr "on")
    = Valid (Some (PyList [PyStr "on"])).
Proof.
  assert (∀ x, cv_string x ≠ Invalid []) as Hstring
    by (intros x; destruct x; discriminate).
  split; [exact Hstring|].
  apply (state_list_validated CONF_DISABLE_STATE (PyStr "on")
           (PyList [PyStr "on"]) (list_elem_of_here _ _) Hstring).
  exists [PyStr "on"], [PyStr "on"].
  split; [reflexivity|]. split; [|reflexivity].
  constructor; [reflexivity | constructor].
Defined.

Lemma CONFIG_SCHEMA_numeral_witness :
  numeral [0; 5; 0] = "050"%string
  ∧ CONFIG_SCHEMA (with_section ∅ (<[CONF_MAX_BRIGHTNESS:=PyStr "050"]> ∅))
    = Valid (with_section ∅
               (<[CONF_MAX_BRIGHTNESS:=PyInt 50]> Example.validated_defaults)).
Proof.
  split; [reflexivity|].
  apply (CONFIG_SCHEMA_numeral CONF_MAX_BRIGHTNESS 1 100 ∅ ∅
           Example.validated_defaults [0; 5; 0] eq_refl
           example_defaults_valid).
  - discriminate.
  - repeat constructor; unfold is_digit; lia.
  - right. simpl. lia.
  - unfold numeral_value. simpl. lia.
Defined.

Lemma CONFIG_SCHEMA_brightness_range_witness :
  CONF_MIN_BRIGHTNESS ∈ brightness_keys
  ∧ CONFIG_SCHEMA (with_section ∅ ∅)
    = Valid (with_section ∅ Example.validated_defaults)
  ∧ is_valid (CONFIG_SCHEMA
                (with_section ∅ (<[CONF_MIN_BRIGHTNESS:=PyInt 80]> ∅)))
    = true
  ∧ is_valid (CONFIG_SCHEMA
                (with_section ∅ (<[CONF_MIN_BRIGHTNESS:=PyInt 101]> ∅)))
    = false
  ∧ is_valid (CONFIG_SCHEMA
                (with_section ∅ (<[CONF_MIN_BRIGHTNESS:=PyInt 0]> ∅)))
    = false
  ∧ CONFIG_SCHEMA
      (with_section ∅ (<[CONF_MIN_BRIGHTNESS:=PyStr " 80 "]> ∅))
    = Valid (with_section ∅
               (<[CONF_MIN_BRIGHTNESS:=PyInt 80]> Example.validated_defaults))
  ∧ is_valid (CONFIG_SCHEMA
                (with_section ∅
                   (<[CONF_MIN_BRIGHTNESS:=PyStr (String "028" "80")]> ∅)))
    = false
  ∧ is_valid (CONFIG_SCHEMA
                (with_section ∅ (<[CONF_MIN_BRIGHTNESS:=PyFloat 80.5]> ∅)))
    = true
  ∧ is_valid (CONFIG_SCHEMA
                (with_section ∅ (<[CONF_MIN_BRIGHTNESS:=PyFloat 0.5]> ∅)))
    = false
  ∧ is_valid (CONFIG_SCHEMA
                (with_section ∅ (<[CONF_MIN_BRIGHTNESS:=PyNone]> ∅)))
    = false.
Proof.
  assert (CONF_MIN_BRIGHTNESS ∈ brightness_keys) as Hkey
    by apply list_elem_of_here.
  pose (T := λ v, CONFIG_SCHEMA_brightness_range CONF_MIN_BRIGHTNESS ∅ ∅ _ v
                    Hkey example_defaults_valid).
  split_and!; [exact Hkey | exact example_defaults_valid | ..].
  - destruct (T (PyInt 80)) as (_ & _ & Hint & _).
    apply (Hint 80 eq_refl). lia.
  - apply not_true_is_false. intros Hv.
    destruct (T (PyInt 101)) as (_ & _ & Hint & _).
    apply (Hint 101 eq_refl) in Hv. lia.
  - apply not_true_is_false. intros Hv.
    destruct (T (PyInt 0)) as (_ & _ & Hint & _).
    apply (Hint 0 eq_refl) in Hv. lia.
  - destruct (T (PyStr " 80 ")) as (_ & Hout & _).
    destruct (Hout 80 eq_refl ltac:(lia)) as (out & Heq & ->).
    by apply with_section_inj in Heq as <-.
  - apply not_true_is_false. intros Hv.
    destruct (T (PyStr (String "028" "80"))) as (_ & _ & _ & Hstr & _).
    apply (Hstr _ eq_refl) in Hv as (n & Hn & _).
    vm_compute in Hn. discriminate Hn.
  - destruct (T (PyFloat 80.5)) as (_ & _ & _ & _ & Hfloat & _).
    apply (Hfloat _ eq_refl). exists 80. split; [reflexivity | lia].
  - apply not_true_is_false. intros Hv.
    destruct (T (PyFloat 0.5)) as (_ & _ & _ & _ & Hfloat & _).
    apply (Hfloat _ eq_refl) in Hv as (n & Hn & Hr).
    vm_compute in Hn. injection Hn as <-. lia.
  - destruct (T PyNone) as (_ & _ & _ & _ & _ & Hnot). by apply Hnot.
Defined.

Lemma CONFIG_SCHEMA_color_temp_range_witness :
  CONF_SLEEP_COLOR_TEMP ∈ color_temp_keys
  ∧ CONFIG_SCHEMA (with_section ∅ ∅)
    = Valid (with_section ∅ Example.validated_defaults)
  ∧ is_valid (CONFIG_SCHEMA
                (with_section ∅ (<[CONF_SLEEP_COLOR_TEMP:=PyInt 2000]> ∅)))
    = true
  ∧ is_valid (CONFIG_SCHEMA
                (with_section ∅ (<[CONF_SLEEP_COLOR_TEMP:=PyInt 999]> ∅)))
    = false
  ∧ is_valid (CONFIG_SCHEMA
                (with_section ∅ (<[CONF_SLEEP_COLOR_TEMP:=PyInt 10001]> ∅)))
    = false
  ∧ CONFIG_SCHEMA
      (with_section ∅ (<[CONF_SLEEP_COLOR_TEMP:=PyStr "2_500"]> ∅))
    = Valid (with_section ∅
               (<[CONF_SLEEP_COLOR_TEMP:=PyInt 2500]>
                  Example.validated_defaults))
  ∧ is_valid (CONFIG_SCHEMA
                (with_section ∅
                   (<[CONF_SLEEP_COLOR_TEMP:=PyStr (String "029" "2500")]>
                      ∅)))
    = false
  ∧ CONFIG_SCHEMA
      (with_section ∅ (<[CONF_SLEEP_COLOR_TEMP:=PyFloat 2500.75]> ∅))
    = Valid (with_section ∅
               (<[CONF_SLEEP_COLOR_TEMP:=PyInt 2500]>
                  Example.validated_defaults))
  ∧ is_valid (CONFIG_SCHEMA
                (with_section ∅ (<[CONF_SLEEP_COLOR_TEMP:=PyList []]> ∅)))
    = false.
Proof.
  assert (CONF_SLEEP_COLOR_TEMP ∈ color_temp_keys) as Hkey
    by (do 2 apply list_elem_of_further; apply list_elem_of_here).
  pose (T := λ v, CONFIG_SCHEMA_color_temp_range CONF_SLEEP_COLOR_TEMP ∅ ∅ _
                    v Hkey example_defaults_valid).
  split_and!; [exact Hkey | exact example_defaults_valid | ..].
  - destruct (T (PyInt 2000)) as (_ & _ & Hint & _).
    apply (Hint 2000 eq_refl). lia.
  - apply not_true_is_false. intros Hv.
    destruct (T (PyInt 999)) as (_ & _ & Hint & _).
    apply (Hint 999 eq_refl) in Hv. lia.
  - apply not_true_is_false. intros Hv.
    destruct (T (PyInt 10001)) as (_ & _ & Hint & _).
    apply (Hint 10001 eq_refl) in Hv. lia.
  - destruct (T (PyStr "2_500")) as (_ & Hout & _).
    destruct (Hout 2500 eq_refl ltac:(lia)) as (out & Heq & ->).
    by apply with_section_inj in Heq as <-.
  - apply not_true_is_false. intros Hv.
    destruct (T (PyStr (String "029" "2500"))) as (_ & _ & _ & Hstr & _).
    apply (Hstr _ eq_refl) in Hv as (n & Hn & _).
    vm_compute in Hn. discriminate Hn.
  - destruct (T (PyFloat 2500.75)) as (_ & Hout & _).
    destruct (Hout 2500 eq_refl ltac:(lia)) as (out & Heq & ->).
    by apply with_section_inj in Heq as <-.
  - destruct (T (PyList [])) as (_ & _ & _ & _ & _ & Hnot). by apply Hnot.
Defined.

Lemma CONFIG_SCHEMA_decimal_string_witness :
  numeral [5; 0] = "50"%string
  ∧ numeral_value [5; 0] = 50
  ∧ CONFIG_SCHEMA (with_section ∅ (<[CONF_MAX_BRIGHTNESS:=PyStr "50"]> ∅))
    = Valid (with_section ∅
               (<[CONF_MAX_BRIGHTNESS:=PyInt 50]> Example.validated_defaults))
  ∧ CONFIG_SCHEMA
      (with_section ∅ (<[CONF_MAX_BRIGHTNESS:=PyStr " +5_0 "]> ∅))
    = Valid (with_section ∅
               (<[CONF_MAX_BRIGHTNESS:=PyInt 50]> Example.validated_defaults)).
Proof.
  split; [reflexivity|]. split; [reflexivity|].
  destruct (CONFIG_SCHEMA_decimal_string CONF_MAX_BRIGHTNESS 1 100 ∅ ∅ _
              eq_refl example_defaults_valid)
    as (out & Heq & Hnumeral & Hstring).
  apply with_section_inj in Heq as <-. split.
  - apply (Hnumeral [5; 0]).
    + discriminate.
    + repeat constructor; unfold is_digit; lia.
    + right. simpl. lia.
    + unfold numeral_value. simpl. lia.
  - apply (Hstring " +5_0 " 50); [reflexivity | lia].
Defined.

(** On the example every default passes the validator of its key. *)
Lemma example_items_ok k v :
  key_value_map DOMAIN_SCHEMA ∅ !! k = Some v →
  item_ok PREVENT_EXTRA DOMAIN_SCHEMA k v.
Proof.
  destruct (is_valid_section ∅ ∅ example_is_valid) as [out Hout].
  apply validate_mapping_Valid in Hout as (Hok & _ & _).
  apply Hok.
Qed.

Lemma CONFIG_SCHEMA_interval_default_witness :
  default_interval_90s
  ∧ ∃ out, CONFIG_SCHEMA (with_section ∅ ∅) = Valid (with_section ∅ out)
      ∧ out !! CONF_INTERVAL = Some (PyTimedelta 90000000).
Proof.
  split; [reflexivity|].
  apply (CONFIG_SCHEMA_interval_default ∅ ∅); [reflexivity..|].
  intros k v _. apply example_items_ok.
Defined.

End Further_on_the_example.
